(** * Fleet management server: registry, liveness sweep, fan-out, dispatch

    A shallow embedding of [server/main.py].  The server keeps one
    [RobotStateManager] (a registry of robot records, a list of websocket
    observers and one [asyncio.Lock]), ingests state reports from the bus,
    marks silent robots offline, and gates task dispatch on availability.

    Conventions of the embedding:
    - Python numbers (JSON numbers, [time.time()] readings) are held by
      their exact value, a rational [Q]; NaN and the infinities are not
      represented.  Comparisons and [int()] are exact in Python too; the
      one float operation of the server, the subtraction in the sweep,
      rounds its result to binary64 ([float_sub]).
    - A [str] is a [string] of UTF-8 bytes.
    - A [dict] is an association list in insertion order, the order Python
      iterates it in.
    - [json.dumps(x)] is kept as the value [x] it serialises.
    - Every coroutine is a function from the state of the process to an
      outcome: it returned, it raised, or it is parked forever on the lock. *)

From Stdlib Require Import QArith ZArith Lia Ascii.
From stdpp Require Import base strings pretty list.

Local Open Scope string_scope.
Set Warnings "-register-all".

(** ** JSON values, as produced by [json.loads] *)

Inductive json : Type :=
| JNull
| JBool (b : bool)
| JNum (q : Q)
| JStr (s : string)
| JArr (l : list json)
| JObj (o : list (string * json)).

(** [v == s] for a Python value [v] and a [str] literal [s]. *)
Definition py_eq_str (v : json) (s : string) : bool :=
  match v with
  | JStr s' => String.eqb s' s
  | _ => false
  end.

Definition Qgtb (x y : Q) : bool := negb (Qle_bool x y).

(** The number a Python value counts as in a comparison, if any: a [bool]
    is the integer 0 or 1. *)
Definition num_value (v : json) : option Q :=
  match v with
  | JNum q => Some q
  | JBool b => Some (if b then 1%Q else 0%Q)
  | _ => None
  end.

(** [v > x] for a Python value [v] and a float [x]; [None] is the
    [TypeError] of comparing something that is not a number. *)
Definition py_gt (v : json) (x : Q) : option bool :=
  match num_value v with
  | Some q => Some (Qgtb q x)
  | None => None
  end.

(** [int(x)] truncates toward zero. *)
Definition py_int (x : Q) : Z := Z.quot (Qnum x) (Z.pos (Qden x)).

(** ** Python dictionaries with string keys *)

Definition dict (V : Type) : Type := list (string * V).

Fixpoint dict_get {V : Type} (k : string) (d : dict V) : option V :=
  match d with
  | [] => None
  | (k', v) :: d' => if String.eqb k' k then Some v else dict_get k d'
  end.

(** [d[k] = v]: overwrite in place, or append a new key at the end. *)
Fixpoint dict_set {V : Type} (k : string) (v : V) (d : dict V) : dict V :=
  match d with
  | [] => [(k, v)]
  | (k', v') :: d' =>
      if String.eqb k' k then (k', v) :: d' else (k', v') :: dict_set k v d'
  end.

Definition dict_keys {V : Type} (d : dict V) : list string := map fst d.

Definition dict_mem {V : Type} (k : string) (d : dict V) : bool :=
  match dict_get k d with Some _ => true | None => false end.

(** ** The data model *)

(** [class RobotState(BaseModel)].  Assignment to a field is not
    validated, so [battery] and [status] hold whatever JSON value the last
    report carried.  Each instance gets its own copy of the [{}] defaults. *)
Record RobotState : Type := mkRobotState {
  robot_id : string;
  pose : json;
  battery : json;
  status : json;
  last_seen : Q;
  custom_state : dict json
}.

Definition new_RobotState (rid : string) : RobotState :=
  {| robot_id := rid; pose := JObj []; battery := JNum 0;
     status := JStr "OFFLINE"; last_seen := 0; custom_state := [] |}.

Definition set_pose (v : json) (r : RobotState) : RobotState :=
  {| robot_id := robot_id r; pose := v; battery := battery r;
     status := status r; last_seen := last_seen r;
     custom_state := custom_state r |}.

Definition set_battery (v : json) (r : RobotState) : RobotState :=
  {| robot_id := robot_id r; pose := pose r; battery := v;
     status := status r; last_seen := last_seen r;
     custom_state := custom_state r |}.

Definition set_status (v : json) (r : RobotState) : RobotState :=
  {| robot_id := robot_id r; pose := pose r; battery := battery r;
     status := v; last_seen := last_seen r;
     custom_state := custom_state r |}.

Definition set_last_seen (t : Q) (r : RobotState) : RobotState :=
  {| robot_id := robot_id r; pose := pose r; battery := battery r;
     status := status r; last_seen := t;
     custom_state := custom_state r |}.

Definition set_custom_state (c : dict json) (r : RobotState) : RobotState :=
  {| robot_id := robot_id r; pose := pose r; battery := battery r;
     status := status r; last_seen := last_seen r;
     custom_state := c |}.

Module TaskRequest.
Record t : Type := mk {
  robot_id : string;
  target_position : json;
  priority : string
}.
End TaskRequest.

Module TaskResponse.
Record t : Type := mk {
  task_id : string;
  robot_id : string;
  status : string
}.
End TaskResponse.

(** [zenoh.Priority], as far as the server names it. *)
Inductive Priority : Type := DEFAULT | NORMAL | REAL_TIME.

(** A websocket is a handle; what a send to it does is part of the world. *)
Definition WebSocket : Type := nat.

Inductive Exn : Type :=
| HTTPException (status_code : Z) (detail : string)
| TypeError
| SendFailed
| UnicodeDecodeError.

(** ** The state of the process and of what surrounds it

    [robot_states], [websocket_connections] and [lock] are the fields of
    the one [RobotStateManager]; [zenoh_session] is the module global
    ([false] for [None]).  [clock] and [ticks] give the successive readings
    of [time.time()]; [send_fails] tells for which sockets [send_text]
    raises; [sent] and [bus] record what reached the observers and the
    bus, oldest first. *)
Record World : Type := mkWorld {
  robot_states : dict RobotState;
  websocket_connections : list WebSocket;
  lock : bool;
  zenoh_session : bool;
  clock : nat -> Q;
  ticks : nat;
  send_fails : WebSocket -> bool;
  sent : list (WebSocket * json);
  bus : list (string * json * Priority)
}.

Definition set_robot_states (rs : dict RobotState) (w : World) : World :=
  mkWorld rs (websocket_connections w) (lock w) (zenoh_session w)
          (clock w) (ticks w) (send_fails w) (sent w) (bus w).

Definition set_connections (cs : list WebSocket) (w : World) : World :=
  mkWorld (robot_states w) cs (lock w) (zenoh_session w)
          (clock w) (ticks w) (send_fails w) (sent w) (bus w).

Definition set_lock (b : bool) (w : World) : World :=
  mkWorld (robot_states w) (websocket_connections w) b (zenoh_session w)
          (clock w) (ticks w) (send_fails w) (sent w) (bus w).

Definition set_ticks (n : nat) (w : World) : World :=
  mkWorld (robot_states w) (websocket_connections w) (lock w)
          (zenoh_session w) (clock w) n (send_fails w) (sent w) (bus w).

Definition set_sent (l : list (WebSocket * json)) (w : World) : World :=
  mkWorld (robot_states w) (websocket_connections w) (lock w)
          (zenoh_session w) (clock w) (ticks w) (send_fails w) l (bus w).

Definition set_bus (l : list (string * json * Priority)) (w : World) : World :=
  mkWorld (robot_states w) (websocket_connections w) (lock w)
          (zenoh_session w) (clock w) (ticks w) (send_fails w) (sent w) l.

(** ** Coroutines *)

Inductive Outcome (A : Type) : Type :=
| Returned (a : A) (w : World)
| Raised (e : Exn) (w : World)
| Blocked (w : World).

Arguments Returned {A} a w.
Arguments Raised {A} e w.
Arguments Blocked {A} w.

Definition M (A : Type) : Type := World -> Outcome A.

Definition world_of {A : Type} (o : Outcome A) : World :=
  match o with
  | Returned _ w => w
  | Raised _ w => w
  | Blocked w => w
  end.

Definition ret {A : Type} (a : A) : M A := fun w => Returned a w.

Definition bind {A B : Type} (m : M A) (k : A -> M B) : M B :=
  fun w =>
    match m w with
    | Returned a w' => k a w'
    | Raised e w' => Raised e w'
    | Blocked w' => Blocked w'
    end.

Notation "x <- m ;; k" := (bind m (fun x => k))
  (at level 100, m at next level, right associativity).
Notation "m ;; k" := (bind m (fun _ => k))
  (at level 100, right associativity).

Definition raise {A : Type} (e : Exn) : M A := fun w => Raised e w.

Definition get_world : M World := fun w => Returned w w.

Definition modify (f : World -> World) : M unit := fun w => Returned tt (f w).

(** [try: m  except Exception: h] *)
Definition try_except {A : Type} (m : M A) (h : M A) : M A :=
  fun w =>
    match m w with
    | Raised _ w' => h w'
    | o => o
    end.

(** [time.time()] *)
Definition time_time : M Q :=
  fun w => Returned (clock w (ticks w)) (set_ticks (S (ticks w)) w).

(** [await lock.acquire()]: the lock is not reentrant; whoever asks for it
    while it is held waits for a release. *)
Definition acquire : M unit :=
  fun w => if lock w then Blocked w else Returned tt (set_lock true w).

Definition release : M unit := modify (set_lock false).

(** [async with self.lock: body] *)
Definition with_lock {A : Type} (body : M A) : M A :=
  acquire ;;
  fun w =>
    match body w with
    | Returned a w' => Returned a (set_lock false w')
    | Raised e w' => Raised e (set_lock false w')
    | Blocked w' => Blocked w'
    end.

(** ** Strings: [str.split] and [str.join] on one separator byte *)

Fixpoint str_split (sep : Ascii.ascii) (s : string) : list string :=
  match s with
  | EmptyString => [EmptyString]
  | String c s' =>
      if Ascii.eqb c sep then EmptyString :: str_split sep s'
      else match str_split sep s' with
           | [] => [String c EmptyString]
           | p :: ps => String c p :: ps
           end
  end.

Fixpoint str_join (sep : Ascii.ascii) (parts : list string) : string :=
  match parts with
  | [] => EmptyString
  | [p] => p
  | p :: ps => p +:+ String sep (str_join sep ps)
  end.

Definition slash : Ascii.ascii := "/"%char.

(** ** [class RobotStateManager] *)

(** [await connection.send_text(msg)] *)
Definition send_text (connection : WebSocket) (msg : json) : M unit :=
  fun w =>
    if send_fails w connection then Raised SendFailed w
    else Returned tt (set_sent (sent w ++ [(connection, msg)]) w).

(** [list.remove(x)]: drops the first occurrence. *)
Fixpoint list_remove (x : WebSocket) (l : list WebSocket) : list WebSocket :=
  match l with
  | [] => []
  | y :: l' => if Nat.eqb y x then l' else y :: list_remove x l'
  end.

Definition add_connection (websocket : WebSocket) : M unit :=
  with_lock
    (modify (fun w =>
       set_connections (websocket_connections w ++ [websocket]) w)).

Definition remove_connection (websocket : WebSocket) : M unit :=
  with_lock
    (modify (fun w =>
       set_connections (list_remove websocket (websocket_connections w)) w)).

Definition state_update_msg (rid state_type : string) (data : json) (t : Q)
  : json :=
  JObj [("msg_type", JStr "state_update"); ("robot_id", JStr rid);
        ("state_type", JStr state_type); ("data", data);
        ("timestamp", JNum t)].

(** [for connection in self.websocket_connections: ...].  The list iterator
    holds an index [i] into the live list, so a removal during the pass
    shifts what the index meets next.  [fuel] bounds the number of rounds;
    the length of the list at the start is enough ([broadcast_loop_fuel]). *)
Fixpoint broadcast_loop (fuel i : nat) (update_msg : json) : M unit :=
  match fuel with
  | O => ret tt
  | S fuel' =>
      w <- get_world ;;
      match websocket_connections w !! i with
      | None => ret tt
      | Some connection =>
          try_except (send_text connection update_msg)
                     (remove_connection connection) ;;
          broadcast_loop fuel' (S i) update_msg
      end
  end.

Definition broadcast_update (rid state_type : string) (data : json) : M unit :=
  t <- time_time ;;
  w <- get_world ;;
  broadcast_loop (length (websocket_connections w)) 0
                 (state_update_msg rid state_type data t).

(** The [if]/[elif] chain on [state_type]. *)
Definition apply_field (state_type : string) (data : json) (robot : RobotState)
  : RobotState :=
  if String.eqb state_type "pose" then set_pose data robot
  else if String.eqb state_type "battery" then set_battery data robot
  else if String.eqb state_type "status" then set_status data robot
  else set_custom_state (dict_set state_type data (custom_state robot)) robot.

(** [if robot_id not in self.robot_states: ... = RobotState(robot_id=...)] *)
Definition register (rid : string) (rs : dict RobotState) : dict RobotState :=
  if dict_mem rid rs then rs else dict_set rid (new_RobotState rid) rs.

(** The writes of [update_robot_state] to the record of [rid], given the
    reading [now] of the clock.  The [None] branch is the [KeyError] that
    [register] rules out. *)
Definition touch (now : Q) (rid state_type : string) (data : json)
    (rs : dict RobotState) : dict RobotState :=
  match dict_get rid rs with
  | Some robot =>
      dict_set rid
        (apply_field state_type data
           (set_status (JStr "ONLINE") (set_last_seen now robot))) rs
  | None => rs
  end.

(** What one applied update does to the registry. *)
Definition upsert (now : Q) (rid state_type : string) (data : json)
    (rs : dict RobotState) : dict RobotState :=
  touch now rid state_type data (register rid rs).

Definition update_robot_state (rid state_type : string) (data : json)
  : M unit :=
  with_lock
    (modify (fun w => set_robot_states (register rid (robot_states w)) w) ;;
     now <- time_time ;;
     modify (fun w =>
       set_robot_states (touch now rid state_type data (robot_states w)) w) ;;
     broadcast_update rid state_type data).

(** [zenoh_publish]: nothing is sent while the session is [None]. *)
Definition zenoh_publish (key : string) (data : json) (priority : Priority)
  : M unit :=
  fun w =>
    if zenoh_session w then
      Returned tt (set_bus (bus w ++ [(key, data, priority)]) w)
    else Returned tt w.

(** ** Float subtraction

    A Python [float] is an IEEE binary64 number: 53 significant bits, the
    smallest step [2^-1074], results rounded to the nearest such number,
    ties to the even one.  Overflow to an infinity is not represented: the
    operands here are readings of [time.time()] and the default [0.0], none
    negative, whose difference does not overflow. *)

(** [2^k <= n/d] *)
Definition pow2_le (k : Z) (n d : positive) : bool :=
  if (0 <=? k)%Z then (2 ^ k * Z.pos d <=? Z.pos n)%Z
  else (Z.pos d <=? Z.pos n * 2 ^ (- k))%Z.

(** The binary exponent of [n/d]: the [e] with [2^e <= n/d < 2^(e+1)]. *)
Definition ilog2 (n d : positive) : Z :=
  let k := (Z.log2 (Z.pos n) - Z.log2 (Z.pos d))%Z in
  if pow2_le k n d then k else (k - 1)%Z.

(** [num/den] rounded to the nearest integer, ties to even. *)
Definition rne (num den : Z) : Z :=
  let m := (num / den)%Z in
  let r := (num mod den)%Z in
  match (2 * r ?= den)%Z with
  | Lt => m
  | Gt => (m + 1)%Z
  | Eq => if Z.even m then m else (m + 1)%Z
  end.

(** The binary64 number nearest to the positive rational [n/d]: a
    multiple of [2^s], where [s] leaves 53 bits and is at least -1074. *)
Definition round_pos (n d : positive) : Q :=
  let s := Z.max (ilog2 n d - 52) (-1074) in
  if (0 <=? s)%Z then inject_Z (rne (Z.pos n) (Z.pos d * 2 ^ s) * 2 ^ s)
  else Qmake (rne (Z.pos n * 2 ^ (- s)) (Z.pos d)) (Z.to_pos (2 ^ (- s))).

Definition round64 (q : Q) : Q :=
  match Qnum q with
  | Z0 => 0
  | Zpos n => round_pos n (Qden q)
  | Zneg n => - round_pos n (Qden q)
  end.

(** [x - y] on floats. *)
Definition float_sub (x y : Q) : Q := round64 (x - y).

(** The test of the sweep on one record:
    [current_time - robot.last_seen > threshold and robot.status != "OFFLINE"],
    a float subtraction compared exactly with the integer threshold. *)
Definition is_silent (current_time : Q) (threshold : Z) (robot : RobotState)
  : bool :=
  Qgtb (float_sub current_time (last_seen robot)) (inject_Z threshold)
  && negb (py_eq_str (status robot) "OFFLINE").

(** [robot.status = "OFFLINE"] on the record of [rid]. *)
Definition mark_offline (rid : string) (rs : dict RobotState)
  : dict RobotState :=
  match dict_get rid rs with
  | Some robot => dict_set rid (set_status (JStr "OFFLINE") robot) rs
  | None => rs
  end.

(** The [for robot_id, robot in self.robot_states.items()] of one sweep;
    the set of keys does not change while the lock is held. *)
Fixpoint sweep_loop (current_time : Q) (threshold : Z) (ids : list string)
    (offline_robots : list string) : M (list string) :=
  match ids with
  | [] => ret offline_robots
  | rid :: ids' =>
      w <- get_world ;;
      match dict_get rid (robot_states w) with
      | None => sweep_loop current_time threshold ids' offline_robots
      | Some robot =>
          if is_silent current_time threshold robot then
            modify (fun w =>
              set_robot_states (mark_offline rid (robot_states w)) w) ;;
            broadcast_update rid "status" (JStr "OFFLINE") ;;
            sweep_loop current_time threshold ids' (offline_robots ++ [rid])
          else sweep_loop current_time threshold ids' offline_robots
      end
  end.

Definition offline_topic : string := "fms/system/event/robot_offline".

Definition offline_event (rid : string) (current_time : Q) : json :=
  JObj [("robot_id", JStr rid); ("timestamp", JNum current_time)].

Fixpoint publish_offline (current_time : Q) (offline_robots : list string)
  : M unit :=
  match offline_robots with
  | [] => ret tt
  | rid :: rest =>
      zenoh_publish offline_topic (offline_event rid current_time) DEFAULT ;;
      publish_offline current_time rest
  end.

(** One round of the [while True] of [check_offline_robots]. *)
Definition sweep (threshold : Z) : M unit :=
  current_time <- time_time ;;
  offline_robots <-
    with_lock
      (w <- get_world ;;
       sweep_loop current_time threshold (dict_keys (robot_states w)) []) ;;
  publish_offline current_time offline_robots.

(** The first [n] rounds of [check_offline_robots]; [asyncio.sleep(1)]
    leaves the state alone. *)
Fixpoint check_offline_robots (n : nat) (threshold : Z) : M unit :=
  match n with
  | O => ret tt
  | S n' => sweep threshold ;; check_offline_robots n' threshold
  end.

(** ** The bus subscription *)


(** The topic check and the two extractions of [callback]. *)
Definition parse_key (key_expr : string) : option (string * string) :=
  let key_parts := str_split slash key_expr in
  if (length key_parts <? 5)%nat
     || negb (String.eqb (nth 0 key_parts "") "fms")
     || negb (String.eqb (nth 1 key_parts "") "robot")
     || negb (String.eqb (nth 3 key_parts "") "state")
  then None
  else Some (nth 2 key_parts "", str_join slash (drop 4 key_parts)).

(** What [json.loads(sample.payload.decode('utf-8'))] makes of the bytes
    of a sample: a value, a [JSONDecodeError] for text that is not JSON, or
    a [UnicodeDecodeError] for bytes that are not UTF-8. *)
Inductive Payload : Type :=
| Utf8Json (data : json)
| NotJson
| NotUtf8.

(** [callback(sample)].  The key is checked first.  Of the two errors of
    decoding, only [JSONDecodeError] is caught (printed and dropped);
    [UnicodeDecodeError] is raised to whoever called the callback. *)
Definition callback (key_expr : string) (payload : Payload) : M unit :=
  match parse_key key_expr with
  | None => ret tt
  | Some (rid, state_type) =>
      match payload with
      | Utf8Json data => update_robot_state rid state_type data
      | NotJson => ret tt
      | NotUtf8 => raise UnicodeDecodeError
      end
  end.

(** ** The HTTP routes *)

Definition schedule_robot (task : TaskRequest.t) : M (option string) :=
  with_lock
    (w <- get_world ;;
     let rid := TaskRequest.robot_id task in
     match dict_get rid (robot_states w) with
     | None => ret None
     | Some robot =>
         if py_eq_str (status robot) "ONLINE" then
           match py_gt (battery robot) 20 with
           | Some true => ret (Some rid)
           | Some false => ret None
           | None => raise TypeError
           end
         else ret None
     end).

Definition get_all_robots : M (list RobotState) :=
  with_lock (w <- get_world ;; ret (map snd (robot_states w))).

Definition not_found : Exn := HTTPException 404 "机器人不存在".

Definition get_robot (rid : string) : M RobotState :=
  with_lock
    (w <- get_world ;;
     match dict_get rid (robot_states w) with
     | None => raise not_found
     | Some robot => ret robot
     end).

Definition unavailable (rid : string) : Exn :=
  HTTPException 503
    ("指定机器人" +:+ rid +:+ "不可用（离线或电量不足）").

(** [f"task_{int(time.time())}"] *)
Definition mint_task_id (t : Q) : string := "task_" +:+ pretty (py_int t).

(** [not robot_id] holds for [None] and for the empty string. *)
Definition py_not (robot_id : option string) : bool :=
  match robot_id with
  | None => true
  | Some s => String.eqb s ""
  end.

Definition create_task (task : TaskRequest.t) : M TaskResponse.t :=
  robot_id <- schedule_robot task ;;
  if py_not robot_id then raise (unavailable (TaskRequest.robot_id task))
  else
    let rid := default "" robot_id in
    t1 <- time_time ;;
    let task_id := mint_task_id t1 in
    t2 <- time_time ;;
    let task_data :=
      JObj [("task_id", JStr task_id);
            ("target_position", TaskRequest.target_position task);
            ("priority", JStr (TaskRequest.priority task));
            ("timestamp", JNum t2)] in
    let priority :=
      if String.eqb (TaskRequest.priority task) "high" then REAL_TIME
      else NORMAL in
    zenoh_publish ("fms/robot/" +:+ rid +:+ "/cmd/task") task_data priority ;;
    ret (TaskResponse.mk task_id rid "scheduled").

Definition cancel_data (t : Q) : json :=
  JObj [("timestamp", JNum t); ("reason", JStr "user_request")].

Definition cancel_task (rid : string) : M json :=
  with_lock
    (w <- get_world ;;
     if dict_mem rid (robot_states w) then ret tt else raise not_found) ;;
  t <- time_time ;;
  zenoh_publish ("fms/robot/" +:+ rid +:+ "/cmd/cancel") (cancel_data t)
                REAL_TIME ;;
  ret (JObj [("status", JStr "cancel command sent")]).

(** ** Runs of the server: reports applied and sweeps, one after another *)

Inductive Input : Type :=
| Report (rid state_type : string) (data : json)
| Sweep (threshold : Z).

Definition step (i : Input) : M unit :=
  match i with
  | Report rid state_type data => update_robot_state rid state_type data
  | Sweep threshold => sweep threshold
  end.

Fixpoint run (inputs : list Input) : M unit :=
  match inputs with
  | [] => ret tt
  | i :: rest => step i ;; run rest
  end.

Definition is_battery_report (rid : string) (i : Input) : bool :=
  match i with
  | Report rid' state_type _ =>
      String.eqb rid' rid && String.eqb state_type "battery"
  | Sweep _ => false
  end.

(** The availability rule of the dispatcher, in words of the registry. *)
Definition available (rid : string) (rs : dict RobotState) : Prop :=
  exists robot q,
    dict_get rid rs = Some robot /\
    status robot = JStr "ONLINE" /\
    num_value (battery robot) = Some q /\ (20 < q)%Q.


Fixpoint count_if {A : Type} (p : A -> bool) (l : list A) : nat :=
  match l with
  | [] => 0
  | x :: l' => (if p x then 1 else 0) + count_if p l'
  end.

(** A [robot_offline] event for [rid], as it sits on the bus. *)
Definition is_offline_event (rid : string) (m : string * json * Priority)
  : bool :=
  match m with
  | (key, JObj [(k1, JStr rid'); (k2, JNum _)], _) =>
      String.eqb key "fms/system/event/robot_offline"
      && String.eqb k1 "robot_id" && String.eqb rid' rid
      && String.eqb k2 "timestamp"
  | _ => false
  end.

(** How many [robot_offline] events for [rid] the bus has carried. *)
Definition offline_events (rid : string) (w : World) : nat :=
  count_if (is_offline_event rid) (bus w).

(** The envelope that tells observer [c] that [rid] went offline. *)
Definition is_offline_envelope (rid : string) (c : WebSocket)
    (m : WebSocket * json) : bool :=
  match m with
  | (c', JObj [(_, JStr kind); (_, JStr rid'); (_, JStr state_type);
               (_, JStr data); (_, JNum _)]) =>
      Nat.eqb c' c && String.eqb kind "state_update"
      && String.eqb rid' rid && String.eqb state_type "status"
      && String.eqb data "OFFLINE"
  | _ => false
  end.

(** How many offline envelopes for [rid] observer [c] has received. *)
Definition offline_envelopes (rid : string) (c : WebSocket) (w : World)
  : nat :=
  count_if (is_offline_envelope rid c) (sent w).

(** How many times observer [c] is registered. *)
Definition registrations (c : WebSocket) (w : World) : nat :=
  count_if (fun c' => Nat.eqb c' c) (websocket_connections w).

(** Would the sweep at time [t] with threshold [T] take [rid] offline? *)
Definition silent_at (t : Q) (T : Z) (rid : string) (w : World) : bool :=
  match dict_get rid (robot_states w) with
  | Some robot => is_silent t T robot
  | None => false
  end.

(** Does the pass over [ids] take [rid] offline? *)
Definition fires (t : Q) (T : Z) (rid : string) (ids : list string)
    (w : World) : bool :=
  existsb (String.eqb rid) ids && silent_at t T rid w.

(** Nothing relevant to a frame property changes outside the given field. *)
Definition preserves {A : Type} (R : World -> World -> Prop) (m : M A)
  : Prop :=
  forall w, R w (world_of (m w)).

(** The registry, the bus and the surroundings are as before; only the
    observers, the lock and the clock's position may differ. *)
Definition same_registry (w w' : World) : Prop :=
  robot_states w' = robot_states w /\ bus w' = bus w /\
  zenoh_session w' = zenoh_session w /\ clock w' = clock w /\
  send_fails w' = send_fails w.

(** Every record has the battery it had, and no record has gone. *)
Definition same_batteries (w w' : World) : Prop :=
  forall rid,
    option_map battery (dict_get rid (robot_states w')) =
    option_map battery (dict_get rid (robot_states w)).

(** ** Worlds used in the examples *)

(** A freshly started server: no record, no observer, the session open,
    and a clock that reads [n] seconds at its [n]-th reading. *)
Definition boot : World :=
  mkWorld [] [] false true (fun n => inject_Z (Z.of_nat n)) 0
          (fun _ => false) [] [].

(** The status report the robot agent of this repository publishes. *)
Definition agent_status (phase : string) : json :=
  JObj [("status", JStr phase); ("message", JStr "");
        ("timestamp", JNum 0)].

(** The record of [rid] after one applied update at time [now]. *)
Definition touched (now : Q) (rid state_type : string) (data : json)
    (rs : dict RobotState) : RobotState :=
  apply_field state_type data
    (set_status (JStr "ONLINE")
       (set_last_seen now (default (new_RobotState rid) (dict_get rid rs)))).

(** A server that knows robot "r1", online with battery 50, and whose
    clock advances by a tenth of a second per reading from 100 s on. *)
Definition busy_second : World :=
  mkWorld
    [("r1", {| robot_id := "r1"; pose := JObj []; battery := JNum 50;
               status := JStr "ONLINE"; last_seen := 100;
               custom_state := [] |})]
    [] false true (fun n => (100 + inject_Z (Z.of_nat n) / 10)%Q) 0
    (fun _ => false) [] [].

(** The record of robot [rid] never had a battery report. *)
Definition battery_untouched (rid : string) (w : World) : Prop :=
  forall robot,
    dict_get rid (robot_states w) = Some robot -> battery robot = JNum 0.

(** The verdict of [schedule_robot] as one case analysis on the registry. *)
Definition verdict (rid : string) (rs : dict RobotState)
  : option (option string) :=
  match dict_get rid rs with
  | None => Some None
  | Some robot =>
      if py_eq_str (status robot) "ONLINE" then
        match py_gt (battery robot) 20 with
        | Some true => Some (Some rid)
        | Some false => Some None
        | None => None
        end
      else Some None
  end.

(** A run in which robot "r1" reports, but never its battery. *)
Definition quiet_run : list Input :=
  [Report "r1" "pose" (JObj []); Sweep 5;
   Report "r2" "battery" (JNum 90); Report "r1" "speed" (JNum 1)].

(** Does the separator byte occur in the string? *)
Fixpoint has_sep (sep : Ascii.ascii) (s : string) : bool :=
  match s with
  | EmptyString => false
  | String c s' => Ascii.eqb c sep || has_sep sep s'
  end.

(** The bus is as before. *)
Definition same_bus (w w' : World) : Prop :=
  bus w' = bus w /\ zenoh_session w' = zenoh_session w.

(** A server with observers 1 and 2, where sends to observer 1 raise. *)
Definition two_observers : World :=
  mkWorld [] [1; 2]%nat false true (fun n => inject_Z (Z.of_nat n)) 0
          (fun c => Nat.eqb c 1) [] [].

(** Observers 1, 2 and 3, where sends to observer 1 raise. *)
Definition three_observers : World :=
  mkWorld [] [1; 2; 3]%nat false true (fun n => inject_Z (Z.of_nat n)) 0
          (fun c => Nat.eqb c 1) [] [].

(** No registered observer has a failing socket. *)
Definition all_sends_succeed (w : World) : Prop :=
  forall c, In c (websocket_connections w) -> send_fails w c = false.

(** What the observers have received once [msg] went to each of [cs]. *)
Definition delivered (msg : json) (cs : list WebSocket) (w : World) : World :=
  set_sent (sent w ++ map (fun c => (c, msg)) cs) w.

(** Robot "r2" was last seen at time 0, is still "ONLINE", one healthy
    observer is connected, and the clock reads 6, 7, 8, ... *)
Definition silent_r2 : World :=
  mkWorld
    [("r2", {| robot_id := "r2"; pose := JObj []; battery := JNum 80;
               status := JStr "ONLINE"; last_seen := 0;
               custom_state := [] |})]
    [7]%nat false true (fun n => (6 + inject_Z (Z.of_nat n))%Q) 0
    (fun _ => false) [] [].

(** The same, but the socket of the one observer is broken. *)
Definition silent_r2_broken_observer : World :=
  mkWorld (robot_states silent_r2) [7]%nat false true (clock silent_r2) 0
          (fun _ => true) [] [].


(** The tail of [create_task], once [schedule_robot] has answered [rid]:
    mint the identifier, publish the command, answer the caller. *)
Definition emit_task (task : TaskRequest.t) (rid : string)
  : M TaskResponse.t :=
  t1 <- time_time ;;
  let task_id := mint_task_id t1 in
  t2 <- time_time ;;
  let task_data :=
    JObj [("task_id", JStr task_id);
          ("target_position", TaskRequest.target_position task);
          ("priority", JStr (TaskRequest.priority task));
          ("timestamp", JNum t2)] in
  let priority :=
    if String.eqb (TaskRequest.priority task) "high" then REAL_TIME
    else NORMAL in
  zenoh_publish ("fms/robot/" +:+ rid +:+ "/cmd/task") task_data priority ;;
  ret (TaskResponse.mk task_id rid "scheduled").

(** The four fields of a record that a report can write. *)
Definition reported (robot : RobotState) : json * json * json * dict json :=
  (pose robot, battery robot, status robot, custom_state robot).

(** The state of the process once [update_robot_state] has run as far as
    it gets. *)
Definition after_update (rid state_type : string) (data : json) (w : World)
  : World :=
  world_of (update_robot_state rid state_type data w).

(** ** Relations between the states before and after an operation *)

(** The registry is untouched and the clock has only been read. *)
Definition registry_kept (w w' : World) : Prop :=
  robot_states w' = robot_states w /\ clock w' = clock w /\
  (ticks w <= ticks w')%nat.

(** The clock is the same one, read some more times. *)
Definition clock_runs (w w' : World) : Prop :=
  clock w' = clock w /\ (ticks w <= ticks w')%nat.

(** The registry has the same robots in the same order, and each record
    is as it was or is as it was with its status set to "OFFLINE". *)
Definition only_marks_offline (w w' : World) : Prop :=
  dict_keys (robot_states w') = dict_keys (robot_states w) /\
  forall rid,
    dict_get rid (robot_states w') = dict_get rid (robot_states w) \/
    dict_get rid (robot_states w') =
    option_map (set_status (JStr "OFFLINE")) (dict_get rid (robot_states w)).

(** The robots known before are still known, in the same order, possibly
    followed by new ones. *)
Definition keys_grow (w w' : World) : Prop :=
  exists l, dict_keys (robot_states w') = (dict_keys (robot_states w) ++ l)%list.

(** Every record carries the id it is stored under. *)
Definition keyed_by_id (w : World) : Prop :=
  forall rid robot,
    dict_get rid (robot_states w) = Some robot -> robot_id robot = rid.


(** A coroutine that gets through, by returning or by raising, leaves
    the lock as it found it. *)
Definition lock_balanced {A : Type} (m : M A) : Prop :=
  forall w,
    match m w with
    | Returned _ w' => lock w' = lock w
    | Raised _ w' => lock w' = lock w
    | Blocked _ => True
    end.

(** The bus has received what it had received, possibly followed by new
    messages, and none at all if there is no session. *)
Definition bus_grows (w w' : World) : Prop :=
  zenoh_session w' = zenoh_session w /\
  exists l, bus w' = (bus w ++ l)%list /\ (zenoh_session w = false -> l = []).

(** The registry, the observer list and the observers' inboxes are as
    they were. *)
Definition serving_kept (w w' : World) : Prop :=
  robot_states w' = robot_states w /\
  websocket_connections w' = websocket_connections w /\
  sent w' = sent w.

(** The server of [busy_second] before the bus session is opened. *)
Definition no_session : World :=
  mkWorld (robot_states busy_second) [] false false (clock busy_second) 0
          (fun _ => false) [] [].

(** [json.dumps({"msg_type": "heartbeat", "timestamp": time.time()})] *)
Definition heartbeat_msg (t : Q) : json :=
  JObj [("msg_type", JStr "heartbeat"); ("timestamp", JNum t)].

(** [while True: await asyncio.sleep(30); await websocket.send_text(...)],
    for [n] rounds. *)
Fixpoint heartbeats (n : nat) (websocket : WebSocket) : M unit :=
  match n with
  | O => ret tt
  | S n' =>
      t <- time_time ;;
      send_text websocket (heartbeat_msg t) ;;
      heartbeats n' websocket
  end.

(** [websocket_endpoint], as far as [n] heartbeats: the socket is
    registered, then kept alive; whatever the loop raises, the handler
    removes the socket and ends. *)
Definition websocket_endpoint (n : nat) (websocket : WebSocket) : M unit :=
  add_connection websocket ;;
  try_except (heartbeats n websocket) (remove_connection websocket).

(** The heartbeats [n] rounds deliver to [c], read from tick [k] on. *)
Fixpoint heartbeat_log (clk : nat -> Q) (k n : nat) (c : WebSocket)
  : list (WebSocket * json) :=
  match n with
  | O => []
  | S n' => (c, heartbeat_msg (clk k)) :: heartbeat_log clk (S k) n' c
  end.

(** ** The robot agent's side of the bus ([agent/robot_agent.py]) *)

(** The key of the agent's heartbeat, [f'fms/robot/{robot_id}/heartbeat']. *)
Definition agent_heartbeat_key (rid : string) : string :=
  "fms/robot/" +:+ rid +:+ "/heartbeat".

(** [cmd_key.split('/')[-1]] *)
Definition agent_cmd_type (cmd_key : string) : string :=
  List.last (str_split slash cmd_key) "".

(** The branch [cmd_callback] takes on a command key. *)
Inductive AgentHandler : Type :=
| ExecuteTask
| CancelTask
| UnknownCommand (cmd_type : string).

Definition agent_route (cmd_key : string) : AgentHandler :=
  let cmd_type := agent_cmd_type cmd_key in
  if String.eqb cmd_type "task" then ExecuteTask
  else if String.eqb cmd_type "cancel" then CancelTask
  else UnknownCommand cmd_type.

(** A server nobody observes yet; the socket of client 1 is broken. *)
Definition no_observer_yet : World :=
  mkWorld [] [] false true (fun n => inject_Z (Z.of_nat n)) 0
          (fun c => Nat.eqb c 1) [] [].

(** A registry in which a record is keyed by the empty string, online
    with a full battery. *)
Definition nameless_robot : World :=
  mkWorld
    [("", {| robot_id := ""; pose := JObj []; battery := JNum 100;
             status := JStr "ONLINE"; last_seen := 0;
             custom_state := [] |})]
    [] false true (fun n => inject_Z (Z.of_nat n)) 0 (fun _ => false) [] [].

(** * Properties *)

(** ** Dictionaries *)

Lemma dict_get_set_eq {V : Type} (k : string) (v : V) (d : dict V) :
  dict_get k (dict_set k v d) = Some v.
Proof.
  induction d as [|[k' v'] d IH]; simpl.
  - now rewrite String.eqb_refl.
  - destruct (String.eqb k' k) eqn:E; simpl; rewrite E; auto.
Qed.

Lemma dict_get_set_ne {V : Type} (k k' : string) (v : V) (d : dict V) :
  k <> k' -> dict_get k' (dict_set k v d) = dict_get k' d.
Proof.
  intros Hne. induction d as [|[k0 v0] d IH]; simpl.
  - destruct (String.eqb k k') eqn:E; auto.
    apply String.eqb_eq in E. contradiction.
  - destruct (String.eqb k0 k) eqn:E; simpl.
    + apply String.eqb_eq in E. subst k0.
      destruct (String.eqb k k') eqn:E'; auto.
      apply String.eqb_eq in E'. contradiction.
    + now rewrite IH.
Qed.

Lemma dict_set_set {V : Type} (k : string) (v1 v2 : V) (d : dict V) :
  dict_set k v2 (dict_set k v1 d) = dict_set k v2 d.
Proof.
  induction d as [|[k' v'] d IH]; simpl.
  - now rewrite String.eqb_refl.
  - destruct (String.eqb k' k) eqn:E; simpl; rewrite E; auto.
    now rewrite IH.
Qed.

Lemma dict_keys_set_present {V : Type} (k : string) (v v0 : V) (d : dict V) :
  dict_get k d = Some v0 -> dict_keys (dict_set k v d) = dict_keys d.
Proof.
  unfold dict_keys. induction d as [|[k' v'] d IH]; simpl; [discriminate|].
  destruct (String.eqb k' k) eqn:E; simpl; auto.
  intros H. now rewrite IH.
Qed.

(** ** Coroutines *)

Lemma with_lock_free {A : Type} (body : M A) (w : World) :
  lock w = false ->
  with_lock body w =
    match body (set_lock true w) with
    | Returned a w' => Returned a (set_lock false w')
    | Raised e w' => Raised e (set_lock false w')
    | Blocked w' => Blocked w'
    end.
Proof. intros H. unfold with_lock, bind, acquire. now rewrite H. Qed.

Lemma with_lock_held {A : Type} (body : M A) (w : World) :
  lock w = true -> with_lock body w = Blocked w.
Proof. intros H. unfold with_lock, bind, acquire. now rewrite H. Qed.

Section Frames.
Context (R : World -> World -> Prop) `{!PreOrder R}.

Lemma preserves_ret {A : Type} (a : A) : preserves R (ret a).
Proof. intros w. simpl. reflexivity. Qed.

Lemma preserves_raise {A : Type} (e : Exn) : preserves R (@raise A e).
Proof. intros w. simpl. reflexivity. Qed.

Lemma preserves_get_world : preserves R get_world.
Proof. intros w. simpl. reflexivity. Qed.

Lemma preserves_bind {A B : Type} (m : M A) (k : A -> M B) :
  preserves R m -> (forall a, preserves R (k a)) -> preserves R (bind m k).
Proof.
  intros Hm Hk w. unfold bind. specialize (Hm w).
  destruct (m w) as [a w'|e w'|w']; simpl in *; auto.
  etransitivity; [exact Hm | apply Hk].
Qed.

Lemma preserves_modify (f : World -> World) :
  (forall w, R w (f w)) -> preserves R (modify f).
Proof. intros Hf w. apply Hf. Qed.

Lemma preserves_try_except {A : Type} (m h : M A) :
  preserves R m -> preserves R h -> preserves R (try_except m h).
Proof.
  intros Hm Hh w. unfold try_except. specialize (Hm w).
  destruct (m w) as [a w'|e w'|w']; simpl in *; auto.
  etransitivity; [exact Hm | apply Hh].
Qed.

Lemma preserves_with_lock {A : Type} (body : M A) :
  (forall b w, R w (set_lock b w)) ->
  preserves R body -> preserves R (with_lock body).
Proof.
  intros Hl Hb w. destruct (lock w) eqn:E.
  - rewrite with_lock_held by assumption. simpl. reflexivity.
  - rewrite with_lock_free by assumption.
    specialize (Hb (set_lock true w)).
    destruct (body (set_lock true w)) as [a w'|e w'|w']; simpl in *.
    + etransitivity; [apply Hl|]. etransitivity; [exact Hb | apply Hl].
    + etransitivity; [apply Hl|]. etransitivity; [exact Hb | apply Hl].
    + etransitivity; [apply Hl | exact Hb].
Qed.
End Frames.

Lemma preserves_weaken {A : Type} (R R' : World -> World -> Prop) (m : M A) :
  (forall w w', R w w' -> R' w w') -> preserves R m -> preserves R' m.
Proof. intros H Hm w. apply H, Hm. Qed.

#[local] Instance same_registry_preorder : PreOrder same_registry.
Proof.
  split.
  - intros w. unfold same_registry. auto.
  - intros w1 w2 w3 (a1 & b1 & c1 & d1 & e1) (a2 & b2 & c2 & d2 & e2).
    unfold same_registry. repeat split; congruence.
Qed.

#[local] Instance same_batteries_preorder : PreOrder same_batteries.
Proof.
  split.
  - intros w rid. reflexivity.
  - intros w1 w2 w3 H1 H2 rid. now rewrite H2, H1.
Qed.

Lemma same_registry_batteries (w w' : World) :
  same_registry w w' -> same_batteries w w'.
Proof. intros (H & _) rid. now rewrite H. Qed.

Ltac frame_step :=
  first [ apply preserves_with_lock; [typeclasses eauto | | ]
        | apply preserves_try_except; [typeclasses eauto | | ]
        | apply preserves_bind; [typeclasses eauto | | intros ?]
        | apply preserves_ret; typeclasses eauto
        | apply preserves_raise; typeclasses eauto
        | apply preserves_get_world; typeclasses eauto
        | apply preserves_modify ].

(** ** The fan-out leaves the registry and the bus alone *)

Lemma send_text_frame (c : WebSocket) (msg : json) :
  preserves same_registry (send_text c msg).
Proof.
  intros w. unfold send_text. destruct (send_fails w c); simpl;
    unfold same_registry; simpl; auto.
Qed.

Lemma set_lock_frame (b : bool) (w : World) : same_registry w (set_lock b w).
Proof. unfold same_registry. simpl. auto. Qed.

Lemma remove_connection_frame (c : WebSocket) :
  preserves same_registry (remove_connection c).
Proof.
  unfold remove_connection. frame_step.
  - apply set_lock_frame.
  - frame_step. intros w. unfold same_registry. simpl. auto.
Qed.

Lemma broadcast_loop_frame (fuel i : nat) (msg : json) :
  preserves same_registry (broadcast_loop fuel i msg).
Proof.
  revert i. induction fuel as [|fuel IH]; intros i; simpl.
  - frame_step.
  - frame_step; [frame_step|].
    destruct (websocket_connections a !! i); [|frame_step].
    frame_step; [|apply IH].
    frame_step; [apply send_text_frame | apply remove_connection_frame].
Qed.

Lemma time_time_frame : preserves same_registry time_time.
Proof. intros w. unfold same_registry. simpl. auto. Qed.

Lemma broadcast_update_frame (rid state_type : string) (data : json) :
  preserves same_registry (broadcast_update rid state_type data).
Proof.
  unfold broadcast_update. frame_step; [apply time_time_frame|].
  frame_step; [frame_step|]. apply broadcast_loop_frame.
Qed.

(** ** What an applied update writes *)

Lemma update_robot_state_registry (w : World) (rid state_type : string)
    (data : json) :
  lock w = false ->
  robot_states (world_of (update_robot_state rid state_type data w)) =
  upsert (clock w (ticks w)) rid state_type data (robot_states w).
Proof.
  intros Hl. unfold update_robot_state. rewrite with_lock_free by assumption.
  unfold bind at 1. unfold modify at 1. unfold bind at 1.
  unfold time_time at 1. unfold bind at 1. unfold modify at 1.
  match goal with
  | |- context [broadcast_update ?a ?b ?c ?w0] =>
      pose proof (broadcast_update_frame a b c w0) as (Hr & _);
      destruct (broadcast_update a b c w0) as [u w'|e w'|w']
  end; simpl in *; rewrite Hr; reflexivity.
Qed.

Lemma update_robot_state_held (w : World) (rid state_type : string)
    (data : json) :
  lock w = true -> update_robot_state rid state_type data w = Blocked w.
Proof. intros Hl. unfold update_robot_state. now apply with_lock_held. Qed.

Lemma apply_field_status (state_type : string) (data : json)
    (robot : RobotState) :
  status (apply_field state_type data robot) =
  if String.eqb state_type "status" then data else status robot.
Proof.
  unfold apply_field.
  destruct (String.eqb state_type "pose") eqn:E1.
  { apply String.eqb_eq in E1. now subst. }
  destruct (String.eqb state_type "battery") eqn:E2.
  { apply String.eqb_eq in E2. now subst. }
  now destruct (String.eqb state_type "status").
Qed.

Lemma apply_field_last_seen (state_type : string) (data : json)
    (robot : RobotState) :
  last_seen (apply_field state_type data robot) = last_seen robot.
Proof.
  unfold apply_field.
  repeat match goal with |- context [if ?b then _ else _] => destruct b end;
    reflexivity.
Qed.

Lemma apply_field_robot_id (state_type : string) (data : json)
    (robot : RobotState) :
  robot_id (apply_field state_type data robot) = robot_id robot.
Proof.
  unfold apply_field.
  repeat match goal with |- context [if ?b then _ else _] => destruct b end;
    reflexivity.
Qed.

Lemma apply_field_battery (state_type : string) (data : json)
    (robot : RobotState) :
  String.eqb state_type "battery" = false ->
  battery (apply_field state_type data robot) = battery robot.
Proof.
  intros E. unfold apply_field. rewrite E.
  repeat match goal with |- context [if ?b then _ else _] => destruct b end;
    reflexivity.
Qed.

Lemma register_lookup (rid : string) (rs : dict RobotState) :
  dict_get rid (register rid rs) =
  Some (default (new_RobotState rid) (dict_get rid rs)).
Proof.
  unfold register, dict_mem. destruct (dict_get rid rs) eqn:E; simpl.
  - exact E.
  - apply dict_get_set_eq.
Qed.

Lemma register_other (rid rid' : string) (rs : dict RobotState) :
  rid <> rid' -> dict_get rid' (register rid rs) = dict_get rid' rs.
Proof.
  intros Hne. unfold register. destruct (dict_mem rid rs); auto.
  now apply dict_get_set_ne.
Qed.

Lemma upsert_unfold (now : Q) (rid state_type : string) (data : json)
    (rs : dict RobotState) :
  upsert now rid state_type data rs =
  dict_set rid (touched now rid state_type data rs) (register rid rs).
Proof. unfold upsert, touch. now rewrite register_lookup. Qed.

Lemma upsert_lookup (now : Q) (rid state_type : string) (data : json)
    (rs : dict RobotState) :
  dict_get rid (upsert now rid state_type data rs) =
  Some (touched now rid state_type data rs).
Proof. rewrite upsert_unfold. apply dict_get_set_eq. Qed.

Lemma upsert_other (now : Q) (rid rid' state_type : string) (data : json)
    (rs : dict RobotState) :
  rid <> rid' ->
  dict_get rid' (upsert now rid state_type data rs) = dict_get rid' rs.
Proof.
  intros Hne. rewrite upsert_unfold, dict_get_set_ne by assumption.
  now apply register_other.
Qed.

Lemma touched_status (now : Q) (rid state_type : string) (data : json)
    (rs : dict RobotState) :
  status (touched now rid state_type data rs) =
  if String.eqb state_type "status" then data else JStr "ONLINE".
Proof. unfold touched. now rewrite apply_field_status. Qed.

Lemma touched_last_seen (now : Q) (rid state_type : string) (data : json)
    (rs : dict RobotState) :
  last_seen (touched now rid state_type data rs) = now.
Proof. unfold touched. now rewrite apply_field_last_seen. Qed.

Lemma register_registered (rid : string) (rs : dict RobotState)
    (robot : RobotState) :
  dict_get rid rs = Some robot -> register rid rs = rs.
Proof. intros H. unfold register, dict_mem. now rewrite H. Qed.

Lemma touch_again (t1 t2 : Q) (state_type : string) (data : json)
    (robot : RobotState) :
  apply_field state_type data
    (set_status (JStr "ONLINE")
       (set_last_seen t2
          (apply_field state_type data
             (set_status (JStr "ONLINE") (set_last_seen t1 robot))))) =
  apply_field state_type data
    (set_status (JStr "ONLINE") (set_last_seen t2 robot)).
Proof.
  unfold apply_field.
  destruct (String.eqb state_type "pose"); [reflexivity|].
  destruct (String.eqb state_type "battery"); [reflexivity|].
  destruct (String.eqb state_type "status"); [reflexivity|].
  unfold set_custom_state, set_status, set_last_seen. simpl.
  now rewrite dict_set_set.
Qed.

Lemma upsert_upsert (t1 t2 : Q) (rid state_type : string) (data : json)
    (rs : dict RobotState) :
  upsert t2 rid state_type data (upsert t1 rid state_type data rs) =
  upsert t2 rid state_type data rs.
Proof.
  rewrite (upsert_unfold t2 _ _ _ (upsert _ _ _ _ _)).
  rewrite (register_registered _ _ _ (upsert_lookup t1 rid state_type data rs)).
  unfold touched at 1. rewrite upsert_lookup. simpl.
  unfold touched at 1. rewrite touch_again.
  rewrite !upsert_unfold. now rewrite dict_set_set.
Qed.

(** ** Incoming state updates *)

(** C4, as amended.  After an applied update the record of the robot exists
    and its status is "ONLINE" whenever the category of the update is not
    "status"; when the category is "status" the status is the payload of the
    update, whatever it is. *)
Theorem update_status_after (w : World) (rid state_type : string)
    (data : json) :
  lock w = false ->
  exists robot,
    dict_get rid
      (robot_states (world_of (update_robot_state rid state_type data w)))
    = Some robot /\
    status robot =
      if String.eqb state_type "status" then data else JStr "ONLINE".
Proof.
  intros Hl. exists (touched (clock w (ticks w)) rid state_type data
                             (robot_states w)).
  rewrite update_robot_state_registry by assumption.
  split; [apply upsert_lookup | apply touched_status].
Qed.

Lemma update_status_after_witness :
  lock boot = false /\
  exists robot,
    dict_get "r1"
      (robot_states (world_of (update_robot_state "r1" "pose" JNull boot)))
    = Some robot /\
    status robot = JStr "ONLINE".
Proof.
  split; [reflexivity|].
  exact (update_status_after boot "r1" "pose" JNull eq_refl).
Defined.

(** C4 as stated fails: a report in the category "status" leaves its own
    payload in the status field, here the phase "RUNNING". *)
Lemma status_report_overrides_online :
  ~ (forall (w : World) (rid state_type : string) (data : json),
        lock w = false ->
        exists robot,
          dict_get rid
            (robot_states
               (world_of (update_robot_state rid state_type data w)))
          = Some robot /\
          status robot = JStr "ONLINE").
Proof.
  intros H.
  destruct (H boot "r1" "status" (JStr "RUNNING") eq_refl) as (robot & Hg & Hs).
  vm_compute in Hg. injection Hg as <-. discriminate Hs.
Qed.

(** C5, as amended.  The first applied update for a robot that has no
    record creates one, keyed and named by the robot id, whose [last_seen]
    is the clock reading of that update and whose status is "ONLINE" unless
    the category of the update is "status", in which case it is the
    payload. *)
Theorem first_update_creates_record (w : World) (rid state_type : string)
    (data : json) :
  lock w = false ->
  dict_get rid (robot_states w) = None ->
  exists robot,
    dict_get rid
      (robot_states (world_of (update_robot_state rid state_type data w)))
    = Some robot /\
    robot_id robot = rid /\
    last_seen robot = clock w (ticks w) /\
    status robot =
      if String.eqb state_type "status" then data else JStr "ONLINE".
Proof.
  intros Hl Hnew.
  exists (touched (clock w (ticks w)) rid state_type data (robot_states w)).
  rewrite update_robot_state_registry by assumption.
  split; [apply upsert_lookup|].
  split; [|split; [apply touched_last_seen | apply touched_status]].
  unfold touched. rewrite apply_field_robot_id, Hnew. reflexivity.
Qed.

Lemma first_update_creates_record_witness :
  (lock boot = false /\ dict_get "r2" (robot_states boot) = None) /\
  exists robot,
    dict_get "r2"
      (robot_states
         (world_of (update_robot_state "r2" "battery" (JNum 80) boot)))
    = Some robot /\
    robot_id robot = "r2" /\
    last_seen robot = clock boot (ticks boot) /\
    status robot = JStr "ONLINE".
Proof.
  split; [split; reflexivity|].
  exact (first_update_creates_record boot "r2" "battery" (JNum 80)
           eq_refl eq_refl).
Defined.

(** C5 as stated fails: when the first report of a robot is the status
    report its agent publishes, the new record carries that report as its
    status, not "ONLINE". *)
Lemma first_status_report_is_not_online :
  ~ (forall (w : World) (rid state_type : string) (data : json),
        lock w = false ->
        dict_get rid (robot_states w) = None ->
        exists robot,
          dict_get rid
            (robot_states
               (world_of (update_robot_state rid state_type data w)))
          = Some robot /\
          status robot = JStr "ONLINE" /\
          last_seen robot = clock w (ticks w)).
Proof.
  intros H.
  destruct (H boot "r2" "status" (agent_status "IDLE") eq_refl eq_refl)
    as (robot & Hg & Hs & _).
  vm_compute in Hg. injection Hg as <-. discriminate Hs.
Qed.

Lemma upsert_keys_again (t1 t2 : Q) (rid state_type : string) (data : json)
    (rs : dict RobotState) :
  dict_keys (upsert t2 rid state_type data (upsert t1 rid state_type data rs))
  = dict_keys (upsert t1 rid state_type data rs).
Proof.
  rewrite (upsert_unfold t2).
  rewrite (register_registered _ _ _ (upsert_lookup t1 rid state_type data rs)).
  eapply dict_keys_set_present. apply upsert_lookup.
Qed.

Lemma touched_reported (t1 t2 : Q) (rid state_type : string) (data : json)
    (rs : dict RobotState) :
  reported (touched t2 rid state_type data rs) =
  reported (touched t1 rid state_type data rs).
Proof.
  unfold reported, touched, apply_field.
  destruct (String.eqb state_type "pose"); [reflexivity|].
  destruct (String.eqb state_type "battery"); [reflexivity|].
  destruct (String.eqb state_type "status"); reflexivity.
Qed.

Lemma upsert_reported (t1 t2 : Q) (rid rid' state_type : string)
    (data : json) (rs : dict RobotState) :
  option_map reported (dict_get rid' (upsert t2 rid state_type data rs)) =
  option_map reported (dict_get rid' (upsert t1 rid state_type data rs)).
Proof.
  destruct (String.eqb rid rid') eqn:E.
  - apply String.eqb_eq in E. subst rid'. rewrite !upsert_lookup. simpl.
    now rewrite (touched_reported t1 t2).
  - apply String.eqb_neq in E. now rewrite !upsert_other by assumption.
Qed.

(** C6.  Apply the same update twice in a row, starting with the lock
    free.  The registry is then what one application of the update leaves
    (the one made at the later clock reading): it has the same robots in
    the same order as after the first application, every robot has the
    pose, battery, status and custom state it had after the first
    application, and when the clock reads the same both times the registry
    is identical to the one after the first application. *)
Theorem update_twice_is_update_once (w : World) (rid state_type : string)
    (data : json) :
  lock w = false ->
  (exists t,
     robot_states
       (after_update rid state_type data (after_update rid state_type data w))
     = upsert t rid state_type data (robot_states w)) /\
  dict_keys
    (robot_states
       (after_update rid state_type data (after_update rid state_type data w)))
  = dict_keys (robot_states (after_update rid state_type data w)) /\
  (forall rid',
     option_map reported
       (dict_get rid'
          (robot_states
             (after_update rid state_type data
                (after_update rid state_type data w))))
     = option_map reported
         (dict_get rid' (robot_states (after_update rid state_type data w)))) /\
  (clock (after_update rid state_type data w)
         (ticks (after_update rid state_type data w))
   = clock w (ticks w) ->
   robot_states
     (after_update rid state_type data (after_update rid state_type data w))
   = robot_states (after_update rid state_type data w)).
Proof.
  intros Hl.
  set (once := after_update rid state_type data w).
  change (after_update rid state_type data once)
    with (world_of (update_robot_state rid state_type data once)).
  assert (robot_states once =
          upsert (clock w (ticks w)) rid state_type data (robot_states w))
    as Honce by (now apply update_robot_state_registry).
  destruct (lock once) eqn:Hl1.
  - rewrite update_robot_state_held by assumption. simpl.
    split; [eauto|]. repeat split; reflexivity.
  - rewrite update_robot_state_registry by assumption.
    rewrite Honce, upsert_upsert.
    split; [eauto|].
    split; [rewrite <- (upsert_upsert (clock w (ticks w)));
            apply upsert_keys_again|].
    split; [intros rid'; apply upsert_reported|].
    now intros ->.
Qed.

Lemma update_twice_is_update_once_witness :
  lock boot = false /\
  (exists t,
     robot_states
       (after_update "r1" "lidar" (JNum 3) (after_update "r1" "lidar" (JNum 3) boot))
     = upsert t "r1" "lidar" (JNum 3) (robot_states boot)) /\
  dict_keys
    (robot_states
       (after_update "r1" "lidar" (JNum 3) (after_update "r1" "lidar" (JNum 3) boot)))
  = dict_keys (robot_states (after_update "r1" "lidar" (JNum 3) boot)) /\
  (forall rid',
     option_map reported
       (dict_get rid'
          (robot_states
             (after_update "r1" "lidar" (JNum 3)
                (after_update "r1" "lidar" (JNum 3) boot))))
     = option_map reported
         (dict_get rid'
            (robot_states (after_update "r1" "lidar" (JNum 3) boot)))) /\
  (clock (after_update "r1" "lidar" (JNum 3) boot)
         (ticks (after_update "r1" "lidar" (JNum 3) boot))
   = clock boot (ticks boot) ->
   robot_states
     (after_update "r1" "lidar" (JNum 3) (after_update "r1" "lidar" (JNum 3) boot))
   = robot_states (after_update "r1" "lidar" (JNum 3) boot)).
Proof.
  split; [reflexivity|].
  exact (update_twice_is_update_once boot "r1" "lidar" (JNum 3) eq_refl).
Defined.

(** ** The dispatcher *)

Lemma set_lock_round (w : World) :
  lock w = false -> set_lock false (set_lock true w) = w.
Proof. destruct w. simpl. now intros ->. Qed.

Lemma Qgtb_lt (x y : Q) : Qgtb x y = true <-> (y < x)%Q.
Proof.
  unfold Qgtb. rewrite negb_true_iff, <- not_true_iff_false, Qle_bool_iff.
  split; [apply Qnot_le_lt | apply Qlt_not_le].
Qed.

Lemma Qgtb_le (x y : Q) : Qgtb x y = false <-> (x <= y)%Q.
Proof. unfold Qgtb. now rewrite negb_false_iff, Qle_bool_iff. Qed.

(** ** Float rounding and integer bounds

    Rounding to binary64 is monotone and every integer of magnitude at
    most [2^53] is a binary64 number, so rounding never carries a value
    across such an integer. *)

Lemma rne_le (num den K : Z) :
  (0 < den)%Z -> (num <= K * den)%Z -> (rne num den <= K)%Z.
Proof.
  intros Hd Hn. unfold rne.
  pose proof (Z.div_mod num den ltac:(lia)) as Hdm.
  pose proof (Z.mod_pos_bound num den Hd) as Hr.
  assert (num / den <= K)%Z as Hm by (apply Z.div_le_upper_bound; lia).
  destruct (Z.eq_dec (num / den)%Z K) as [E|E].
  - assert (num mod den = 0)%Z as -> by nia.
    assert ((2 * 0 ?= den)%Z = Lt) as ->
      by (apply Z.compare_lt_iff; lia).
    lia.
  - destruct (2 * (num mod den) ?= den)%Z; [destruct (Z.even _)|..]; lia.
Qed.

Lemma rne_ge (num den K : Z) :
  (0 < den)%Z -> (K * den <= num)%Z -> (K <= rne num den)%Z.
Proof.
  intros Hd Hn. unfold rne.
  assert (K <= num / den)%Z as Hm by (apply Z.div_le_lower_bound; lia).
  destruct (2 * (num mod den) ?= den)%Z; [destruct (Z.even _)|..]; lia.
Qed.

Lemma ilog2_lower (n d : positive) : pow2_le (ilog2 n d) n d = true.
Proof.
  unfold ilog2.
  set (k := (Z.log2 (Z.pos n) - Z.log2 (Z.pos d))%Z).
  destruct (pow2_le k n d) eqn:E; [exact E|].
  pose proof (Z.log2_spec (Z.pos n) ltac:(lia)) as [Hn _].
  pose proof (Z.log2_spec (Z.pos d) ltac:(lia)) as [_ Hd].
  pose proof (Z.log2_nonneg (Z.pos n)) as Hn0.
  pose proof (Z.log2_nonneg (Z.pos d)) as Hd0.
  unfold pow2_le. destruct (0 <=? k - 1)%Z eqn:Ek.
  - apply Z.leb_le in Ek. apply Z.leb_le.
    assert (Z.log2 (Z.pos n) = (k - 1) + Z.succ (Z.log2 (Z.pos d)))%Z as Hs
      by (unfold k; lia).
    rewrite Hs, Z.pow_add_r in Hn by lia.
    assert (0 < 2 ^ (k - 1))%Z by (apply Z.pow_pos_nonneg; lia).
    nia.
  - apply Z.leb_gt in Ek. apply Z.leb_le.
    assert (Z.succ (Z.log2 (Z.pos d)) = Z.log2 (Z.pos n) + - (k - 1))%Z as Hs
      by (unfold k; lia).
    rewrite Hs, Z.pow_add_r in Hd by lia.
    assert (0 < 2 ^ (- (k - 1)))%Z by (apply Z.pow_pos_nonneg; lia).
    nia.
Qed.

Lemma pow2_to_pos (k : Z) : (0 <= k)%Z -> Z.pos (Z.to_pos (2 ^ k)) = (2 ^ k)%Z.
Proof.
  intros Hk. apply Z2Pos.id. apply Z.pow_pos_nonneg; lia.
Qed.

Lemma round_pos_le (n d : positive) (T : Z) :
  (Z.pos n <= T * Z.pos d)%Z -> (T <= 2 ^ 53)%Z ->
  (round_pos n d <= inject_Z T)%Q.
Proof.
  intros Hx HT. unfold round_pos.
  pose proof (ilog2_lower n d) as Hlow.
  set (e := ilog2 n d) in *.
  set (s := Z.max (e - 52) (-1074)%Z).
  destruct (0 <=? s)%Z eqn:Es.
  - apply Z.leb_le in Es. rewrite <- Zle_Qle.
    assert (0 <= e)%Z as He by lia.
    unfold pow2_le in Hlow. rewrite (proj2 (Z.leb_le 0 e) He) in Hlow.
    apply Z.leb_le in Hlow.
    assert (s = e - 52)%Z as Hs by lia.
    assert (2 ^ e <= 2 ^ 53)%Z as Hpow.
    { assert (0 < 2 ^ e)%Z by (apply Z.pow_pos_nonneg; lia). nia. }
    apply Z.pow_le_mono_r_iff in Hpow; [|lia|lia].
    assert (s = 0 \/ s = 1)%Z as [E|E] by lia; rewrite E.
    + rewrite Z.pow_0_r, !Z.mul_1_r. apply rne_le; lia.
    + assert (e = 53)%Z as E53 by lia. rewrite E53 in Hlow.
      change (2 ^ 1)%Z with 2%Z.
      assert (rne (Z.pos n) (Z.pos d * 2) <= 2 ^ 52)%Z.
      { apply rne_le; [lia|]. change (2 ^ 53)%Z with (2 ^ 52 * 2)%Z in HT.
        nia. }
      change (2 ^ 53)%Z with (2 ^ 52 * 2)%Z in Hlow.
      assert (2 ^ 52 * 2 <= T)%Z by nia. lia.
  - apply Z.leb_gt in Es.
    unfold Qle. cbn [Qnum Qden inject_Z].
    rewrite pow2_to_pos by lia. rewrite Z.mul_1_r.
    assert (0 < 2 ^ (- s))%Z as Hp by (apply Z.pow_pos_nonneg; lia).
    apply rne_le; [lia|].
    apply Z.le_trans with (T * Z.pos d * 2 ^ (- s))%Z;
      [apply Z.mul_le_mono_nonneg_r; lia | lia].
Qed.

Lemma round_pos_ge (n d : positive) (K : Z) :
  (K * Z.pos d <= Z.pos n)%Z -> (0 <= K <= 2 ^ 53)%Z ->
  (inject_Z K <= round_pos n d)%Q.
Proof.
  intros Hx HK. unfold round_pos.
  pose proof (ilog2_lower n d) as Hlow.
  set (e := ilog2 n d) in *.
  set (s := Z.max (e - 52) (-1074)%Z).
  destruct (0 <=? s)%Z eqn:Es.
  - apply Z.leb_le in Es. rewrite <- Zle_Qle.
    assert (0 <= e)%Z as He by lia.
    unfold pow2_le in Hlow. rewrite (proj2 (Z.leb_le 0 e) He) in Hlow.
    apply Z.leb_le in Hlow.
    assert (s = e - 52)%Z as Hs by lia.
    assert (0 < 2 ^ s)%Z as Hps by (apply Z.pow_pos_nonneg; lia).
    assert (2 ^ e = 2 ^ 52 * 2 ^ s)%Z as Hes.
    { rewrite <- Z.pow_add_r by lia. f_equal. lia. }
    assert (2 ^ 52 <= rne (Z.pos n) (Z.pos d * 2 ^ s))%Z as Hm.
    { apply rne_ge; [nia|]. rewrite Hes in Hlow. nia. }
    destruct (Z.eq_dec s 0%Z) as [E|E].
    + rewrite E, Z.pow_0_r, !Z.mul_1_r. apply rne_ge; lia.
    + assert (2 <= 2 ^ s)%Z.
      { change 2%Z with (2 ^ 1)%Z at 1. apply Z.pow_le_mono_r; lia. }
      change (2 ^ 53)%Z with (2 ^ 52 * 2)%Z in HK. nia.
  - apply Z.leb_gt in Es.
    unfold Qle. cbn [Qnum Qden inject_Z].
    rewrite pow2_to_pos by lia. rewrite Z.mul_1_r.
    assert (0 < 2 ^ (- s))%Z as Hp by (apply Z.pow_pos_nonneg; lia).
    apply rne_ge; [lia|].
    apply Z.le_trans with (K * Z.pos d * 2 ^ (- s))%Z;
      [lia | apply Z.mul_le_mono_nonneg_r; lia].
Qed.

Lemma round_pos_nonneg (n d : positive) : (0 <= round_pos n d)%Q.
Proof.
  change 0%Q with (inject_Z 0). apply round_pos_ge; [lia|].
  split; [lia|]. apply Z.pow_nonneg. lia.
Qed.

Lemma round64_le_int (x : Q) (T : Z) :
  (Z.abs T <= 2 ^ 53)%Z -> (x <= inject_Z T)%Q ->
  (round64 x <= inject_Z T)%Q.
Proof.
  intros HT Hx. destruct x as [num den]. unfold round64. simpl.
  unfold Qle in Hx. simpl in Hx. rewrite Z.mul_1_r in Hx.
  destruct num as [|n|n].
  - change 0%Q with (inject_Z 0). rewrite <- Zle_Qle. lia.
  - apply round_pos_le; lia.
  - destruct (Z_le_gt_dec 0%Z T) as [H0|H0].
    + apply Qle_trans with 0%Q.
      * pose proof (round_pos_nonneg n den) as H.
        apply Qopp_le_compat in H. exact H.
      * change 0%Q with (inject_Z 0). rewrite <- Zle_Qle. lia.
    + assert (inject_Z (- T) <= round_pos n den)%Q as H.
      { apply round_pos_ge; lia. }
      apply Qopp_le_compat in H.
      assert (- inject_Z (- T) == inject_Z T)%Q as E.
      { rewrite inject_Z_opp. apply Qopp_involutive. }
      rewrite E in H. exact H.
Qed.

(** The rounding on known doubles: 0.1 is [3602879701896397 / 2^55], and
    [0.3 - 0.1] is [7205759403792793 / 2^55], which is not the double
    0.2. *)
Lemma round64_known_doubles :
  (round64 (1 # 10) == 3602879701896397 # 36028797018963968)%Q /\
  (float_sub (round64 (3 # 10)) (round64 (1 # 10))
   == 7205759403792793 # 36028797018963968)%Q /\
  ~ (float_sub (round64 (3 # 10)) (round64 (1 # 10)) == round64 (2 # 10))%Q.
Proof.
  split; [|split]; [vm_compute; reflexivity | vm_compute; reflexivity |].
  vm_compute. discriminate.
Qed.

(** Float subtraction at the doubles nearest to 5.7 and 0.7: the exact
    difference is above 5, the computed one is 5. *)
Lemma float_sub_rounds_to_five :
  (5 < round64 (57 # 10) - round64 (7 # 10))%Q /\
  (float_sub (round64 (57 # 10)) (round64 (7 # 10)) == 5)%Q.
Proof. split; vm_compute; reflexivity. Qed.

Lemma float_sub_le_int (x y : Q) (T : Z) :
  (Z.abs T <= 2 ^ 53)%Z -> (x - y <= inject_Z T)%Q ->
  (float_sub x y <= inject_Z T)%Q.
Proof. intros HT H. unfold float_sub. now apply round64_le_int. Qed.

Lemma py_eq_str_true (v : json) (s : string) :
  py_eq_str v s = true <-> v = JStr s.
Proof.
  destruct v; simpl; try (split; [discriminate | intros H; discriminate H]).
  rewrite String.eqb_eq. split; [now intros -> | now intros [= ->]].
Qed.

Lemma schedule_robot_free (w : World) (task : TaskRequest.t) :
  lock w = false ->
  schedule_robot task w =
  match verdict (TaskRequest.robot_id task) (robot_states w) with
  | Some r => Returned r w
  | None => Raised TypeError w
  end.
Proof.
  intros Hl. unfold schedule_robot, verdict.
  rewrite with_lock_free by assumption.
  unfold bind, get_world. simpl.
  destruct (dict_get _ _) as [robot|]; simpl;
    [|now rewrite set_lock_round].
  destruct (py_eq_str _ _); simpl; [|now rewrite set_lock_round].
  destruct (py_gt _ _) as [[|]|]; simpl; now rewrite set_lock_round.
Qed.

Lemma verdict_available (rid : string) (rs : dict RobotState) :
  verdict rid rs = Some (Some rid) <-> available rid rs.
Proof.
  unfold verdict, available, py_gt. split.
  - destruct (dict_get rid rs) as [robot|]; [|discriminate].
    destruct (py_eq_str _ _) eqn:Es; [|discriminate].
    destruct (num_value _) as [q|] eqn:En; [|discriminate].
    destruct (Qgtb q 20) eqn:Eq; [|discriminate].
    intros _. exists robot, q.
    apply py_eq_str_true in Es. apply Qgtb_lt in Eq. auto.
  - intros (robot & q & -> & Hs & -> & Hq).
    apply py_eq_str_true in Hs. apply Qgtb_lt in Hq. now rewrite Hs, Hq.
Qed.


Lemma create_task_free (w : World) (task : TaskRequest.t) :
  lock w = false ->
  create_task task w =
  match verdict (TaskRequest.robot_id task) (robot_states w) with
  | None => Raised TypeError w
  | Some r =>
      if py_not r then Raised (unavailable (TaskRequest.robot_id task)) w
      else emit_task task (default "" r) w
  end.
Proof.
  intros Hl. unfold create_task. unfold bind at 1.
  rewrite schedule_robot_free by assumption.
  destruct (verdict _ _) as [r|]; [|reflexivity].
  destruct (py_not r); reflexivity.
Qed.

Lemma emit_task_returns (w : World) (task : TaskRequest.t) (rid : string) :
  exists resp w',
    emit_task task rid w = Returned resp w' /\
    TaskResponse.task_id resp = mint_task_id (clock w (ticks w)) /\
    TaskResponse.robot_id resp = rid.
Proof.
  unfold emit_task, bind, time_time, zenoh_publish, ret. simpl.
  destruct (zenoh_session w); eauto.
Qed.



(** An example at the edge of C1: the battery report of the robot agent of
    this repository is an object, not a number, and comparing it with
    [20.0] raises [TypeError] instead of answering. *)
Example dispatch_on_agent_battery_report :
  let report := JObj [("voltage", JNum 12); ("percentage", JNum 80)] in
  let w := world_of (update_robot_state "r1" "battery" report boot) in
  exists w',
    create_task (TaskRequest.mk "r1" (JObj []) "normal") w
    = Raised TypeError w'.
Proof. eexists. vm_compute. reflexivity. Qed.

Lemma mint_task_id_inj (t1 t2 : Q) :
  mint_task_id t1 = mint_task_id t2 <-> py_int t1 = py_int t2.
Proof.
  unfold mint_task_id. split; [|now intros ->].
  intros H. apply (inj (String.app "task_")) in H.
  now apply (inj pretty) in H.
Qed.

Lemma create_task_id (w w' : World) (task : TaskRequest.t)
    (resp : TaskResponse.t) :
  create_task task w = Returned resp w' ->
  TaskResponse.task_id resp = mint_task_id (clock w (ticks w)).
Proof.
  destruct (lock w) eqn:Hl.
  - unfold create_task, schedule_robot. unfold bind at 1.
    rewrite with_lock_held by assumption. discriminate.
  - rewrite create_task_free by assumption.
    destruct (verdict _ _) as [r|]; [|discriminate].
    destruct (py_not r); [discriminate|].
    destruct (emit_task_returns w task (default "" r)) as (r' & w'' & -> & E & _).
    now intros [= <- _].
Qed.

(** C2, as amended.  An accepted dispatch returns the identifier "task_"
    followed by the whole seconds of the clock at the dispatch; hence two
    accepted dispatches receive distinct identifiers exactly when their
    clock readings differ in whole seconds, and the same identifier when
    they fall within the same second. *)
Theorem task_ids_differ_iff_seconds_differ (w1 w1' w2 w2' : World)
    (task1 task2 : TaskRequest.t) (resp1 resp2 : TaskResponse.t) :
  create_task task1 w1 = Returned resp1 w1' ->
  create_task task2 w2 = Returned resp2 w2' ->
  TaskResponse.task_id resp1 = mint_task_id (clock w1 (ticks w1)) /\
  (TaskResponse.task_id resp1 <> TaskResponse.task_id resp2 <->
   py_int (clock w1 (ticks w1)) <> py_int (clock w2 (ticks w2))).
Proof.
  intros H1 H2. apply create_task_id in H1, H2.
  split; [exact H1|]. rewrite H1, H2. now rewrite mint_task_id_inj.
Qed.

(** C2 as stated fails: two dispatches accepted within the same second of
    the clock return the same task identifier. *)
Lemma same_second_same_task_id :
  ~ (forall (w w1 w2 : World) (task1 task2 : TaskRequest.t)
            (resp1 resp2 : TaskResponse.t),
        create_task task1 w = Returned resp1 w1 ->
        create_task task2 w1 = Returned resp2 w2 ->
        TaskResponse.task_id resp1 <> TaskResponse.task_id resp2).
Proof.
  intros H.
  set (task := TaskRequest.mk "r1" (JObj []) "normal").
  destruct (create_task task busy_second) as [resp1 w1| |] eqn:E1;
    try (vm_compute in E1; discriminate).
  destruct (create_task task w1) as [resp2 w2| |] eqn:E2;
    try (vm_compute in E1; injection E1 as <- <-;
         vm_compute in E2; discriminate).
  apply (H _ _ _ _ _ _ _ E1 E2).
  vm_compute in E1. injection E1 as <- <-.
  vm_compute in E2. injection E2 as <- <-.
  reflexivity.
Qed.

(** ** Cancelling and looking up *)

(** C8.  With the lock free and the bus session open: if the registry has
    a record for the robot, whatever its status and battery, [cancel_task]
    returns its acknowledgement after publishing the cancel envelope with
    the clock reading and the reason "user_request" on the cancel topic of
    the robot at priority [REAL_TIME]; if the registry has no record,
    [cancel_task] and [get_robot] both raise the 404 error and change
    nothing. *)
Theorem cancel_needs_only_a_record (w : World) (rid : string) :
  lock w = false ->
  zenoh_session w = true ->
  match dict_get rid (robot_states w) with
  | Some robot =>
      cancel_task rid w =
      Returned (JObj [("status", JStr "cancel command sent")])
        (set_bus
           (bus w ++
            [("fms/robot/" +:+ rid +:+ "/cmd/cancel",
              JObj [("timestamp", JNum (clock w (ticks w)));
                    ("reason", JStr "user_request")],
              REAL_TIME)])
           (set_ticks (S (ticks w)) w))
  | None =>
      cancel_task rid w = Raised (HTTPException 404 "机器人不存在") w /\
      get_robot rid w = Raised (HTTPException 404 "机器人不存在") w
  end.
Proof.
  intros Hl Hs.
  assert (forall A (body : M A), with_lock body w =
            match body (set_lock true w) with
            | Returned a w' => Returned a (set_lock false w')
            | Raised e w' => Raised e (set_lock false w')
            | Blocked w' => Blocked w'
            end) as Hwl by (intros; now apply with_lock_free).
  unfold cancel_task, get_robot, bind. rewrite !Hwl.
  unfold get_world, dict_mem. simpl.
  destruct (dict_get rid (robot_states w)) as [robot|]; simpl;
    rewrite set_lock_round by assumption.
  - unfold zenoh_publish, time_time, ret. simpl. rewrite Hs. reflexivity.
  - split; reflexivity.
Qed.

Lemma cancel_needs_only_a_record_witness :
  (lock busy_second = false /\ zenoh_session busy_second = true) /\
  cancel_task "r1" busy_second =
  Returned (JObj [("status", JStr "cancel command sent")])
    (set_bus
       (bus busy_second ++
        [("fms/robot/r1/cmd/cancel",
          JObj [("timestamp", JNum (clock busy_second (ticks busy_second)));
                ("reason", JStr "user_request")],
          REAL_TIME)])
       (set_ticks (S (ticks busy_second)) busy_second)).
Proof.
  split; [split; reflexivity|].
  exact (cancel_needs_only_a_record busy_second "r1" eq_refl eq_refl).
Defined.

(** ** The sweep leaves every battery alone *)

Lemma mark_offline_lookup (rid rid' : string) (rs : dict RobotState) :
  dict_get rid' (mark_offline rid rs) =
  if String.eqb rid rid'
  then option_map (set_status (JStr "OFFLINE")) (dict_get rid' rs)
  else dict_get rid' rs.
Proof.
  unfold mark_offline. destruct (String.eqb rid rid') eqn:E.
  - apply String.eqb_eq in E. subst rid'.
    destruct (dict_get rid rs) as [robot|] eqn:Hg; simpl.
    + apply dict_get_set_eq.
    + exact Hg.
  - apply String.eqb_neq in E.
    destruct (dict_get rid rs); [now apply dict_get_set_ne | reflexivity].
Qed.

Lemma mark_offline_batteries (rid : string) (w : World) :
  same_batteries w (set_robot_states (mark_offline rid (robot_states w)) w).
Proof.
  intros rid'. simpl. rewrite mark_offline_lookup.
  destruct (String.eqb rid rid'); [|reflexivity].
  now destruct (dict_get rid' (robot_states w)).
Qed.

Lemma broadcast_update_batteries (rid state_type : string) (data : json) :
  preserves same_batteries (broadcast_update rid state_type data).
Proof.
  eapply preserves_weaken;
    [apply same_registry_batteries | apply broadcast_update_frame].
Qed.

Lemma sweep_loop_batteries (current_time : Q) (threshold : Z)
    (ids offline_robots : list string) :
  preserves same_batteries
    (sweep_loop current_time threshold ids offline_robots).
Proof.
  revert offline_robots.
  induction ids as [|rid ids IH]; intros offline_robots; simpl.
  - frame_step.
  - frame_step; [frame_step|].
    destruct (dict_get rid (robot_states a)) as [robot|]; [|apply IH].
    destruct (is_silent current_time threshold robot); [|apply IH].
    frame_step; [frame_step; apply mark_offline_batteries|].
    frame_step; [apply broadcast_update_batteries | apply IH].
Qed.

Lemma zenoh_publish_frame (key : string) (data : json) (p : Priority) :
  preserves same_batteries (zenoh_publish key data p).
Proof.
  intros w. unfold zenoh_publish. destruct (zenoh_session w); simpl;
    intros rid; reflexivity.
Qed.

Lemma publish_offline_batteries (current_time : Q) (l : list string) :
  preserves same_batteries (publish_offline current_time l).
Proof.
  induction l as [|rid l IH]; simpl.
  - frame_step.
  - frame_step; [apply zenoh_publish_frame | apply IH].
Qed.

Lemma sweep_batteries (threshold : Z) :
  preserves same_batteries (sweep threshold).
Proof.
  unfold sweep. frame_step.
  { eapply preserves_weaken;
      [apply same_registry_batteries | apply time_time_frame]. }
  frame_step; [|apply publish_offline_batteries].
  frame_step.
  - intros b w rid. reflexivity.
  - frame_step; [frame_step | apply sweep_loop_batteries].
Qed.

Lemma same_batteries_untouched (rid : string) (w w' : World) :
  same_batteries w w' -> battery_untouched rid w -> battery_untouched rid w'.
Proof.
  intros Hs Hu robot Hg. specialize (Hs rid). rewrite Hg in Hs. simpl in Hs.
  destruct (dict_get rid (robot_states w)) as [r0|] eqn:E; [|discriminate].
  injection Hs as ->. now apply Hu.
Qed.

Lemma report_keeps_battery_untouched (rid rid' state_type : string)
    (data : json) (w : World) :
  is_battery_report rid (Report rid' state_type data) = false ->
  battery_untouched rid w ->
  battery_untouched rid
    (world_of (update_robot_state rid' state_type data w)).
Proof.
  intros Hb Hu. destruct (lock w) eqn:Hl.
  { now rewrite update_robot_state_held. }
  intros robot. rewrite update_robot_state_registry by assumption.
  simpl in Hb. destruct (String.eqb rid' rid) eqn:E.
  - apply String.eqb_eq in E. subst rid'. simpl in Hb.
    rewrite upsert_lookup. intros [= <-].
    unfold touched. rewrite apply_field_battery by assumption. simpl.
    destruct (dict_get rid (robot_states w)) as [r0|] eqn:Hg; simpl; auto.
  - apply String.eqb_neq in E. rewrite upsert_other by assumption.
    apply Hu.
Qed.

Lemma run_keeps_battery_untouched (rid : string) (inputs : list Input)
    (w : World) :
  forallb (fun i => negb (is_battery_report rid i)) inputs = true ->
  battery_untouched rid w ->
  battery_untouched rid (world_of (run inputs w)).
Proof.
  revert w. induction inputs as [|i inputs IH]; intros w Hall Hu; simpl.
  - exact Hu.
  - simpl in Hall. apply andb_true_iff in Hall as [Hi Hall].
    apply negb_true_iff in Hi.
    assert (battery_untouched rid (world_of (step i w))) as Hstep.
    { destruct i as [rid' state_type data|threshold]; simpl.
      - now apply report_keeps_battery_untouched.
      - eapply same_batteries_untouched; [apply sweep_batteries | exact Hu]. }
    unfold bind. destruct (step i w) as [u w'|e w'|w']; simpl in *; auto.
Qed.

(** C10.  A new record has battery 0.0; and after any run of applied
    updates and sweeps from an empty registry in which no update for the
    robot was in the category "battery", a dispatch to that robot raises the
    503 rejection and changes nothing, whether or not the robot has a
    record and whatever its status is. *)
Theorem no_battery_report_no_dispatch (w0 : World) (inputs : list Input)
    (task : TaskRequest.t) :
  robot_states w0 = [] ->
  forallb (fun i => negb (is_battery_report (TaskRequest.robot_id task) i))
          inputs = true ->
  lock (world_of (run inputs w0)) = false ->
  battery (new_RobotState (TaskRequest.robot_id task)) = JNum 0 /\
  create_task task (world_of (run inputs w0)) =
  Raised (unavailable (TaskRequest.robot_id task)) (world_of (run inputs w0)).
Proof.
  intros Hempty Hall Hl. split; [reflexivity|].
  set (rid := TaskRequest.robot_id task) in *.
  assert (battery_untouched rid (world_of (run inputs w0))) as Hu.
  { apply run_keeps_battery_untouched; [exact Hall|].
    intros robot. rewrite Hempty. discriminate. }
  rewrite create_task_free by assumption. fold rid.
  unfold verdict.
  destruct (dict_get rid _) as [robot|] eqn:Hg; [|reflexivity].
  rewrite (Hu robot Hg).
  destruct (py_eq_str (status robot) "ONLINE"); reflexivity.
Qed.

Lemma no_battery_report_no_dispatch_witness :
  (robot_states boot = [] /\
   forallb (fun i => negb (is_battery_report "r1" i)) quiet_run = true /\
   lock (world_of (run quiet_run boot)) = false) /\
  battery (new_RobotState "r1") = JNum 0 /\
  create_task (TaskRequest.mk "r1" (JObj []) "normal")
    (world_of (run quiet_run boot)) =
  Raised (unavailable "r1") (world_of (run quiet_run boot)).
Proof.
  split; [repeat split; reflexivity|].
  exact (no_battery_report_no_dispatch boot quiet_run
           (TaskRequest.mk "r1" (JObj []) "normal")
           eq_refl eq_refl eq_refl).
Defined.

Lemma task_ids_differ_iff_seconds_differ_witness :
  let task := TaskRequest.mk "r1" (JObj []) "normal" in
  let w1 := world_of (create_task task busy_second) in
  exists resp1 resp2 w2,
    create_task task busy_second = Returned resp1 w1 /\
    create_task task w1 = Returned resp2 w2 /\
    TaskResponse.task_id resp1 = mint_task_id (clock busy_second 0) /\
    (TaskResponse.task_id resp1 <> TaskResponse.task_id resp2 <->
     py_int (clock busy_second 0) <> py_int (clock w1 (ticks w1))).
Proof.
  intros task w1.
  destruct (create_task task busy_second) as [resp1 w1'| |] eqn:E1;
    try (vm_compute in E1; discriminate).
  destruct (create_task task w1) as [resp2 w2| |] eqn:E2;
    try (subst w1; simpl in E2; vm_compute in E1; injection E1 as <- <-;
         vm_compute in E2; discriminate).
  exists resp1, resp2, w2.
  split; [reflexivity|]. split; [reflexivity|].
  exact (task_ids_differ_iff_seconds_differ busy_second w1 w1 w2 task task
           resp1 resp2 E1 E2).
Defined.

(** ** Topics *)

Lemma str_split_nonempty (sep : Ascii.ascii) (s : string) :
  str_split sep s <> [].
Proof.
  destruct s as [|c s]; simpl; [discriminate|].
  destruct (Ascii.eqb c sep); [discriminate|].
  destruct (str_split sep s); discriminate.
Qed.

Lemma append_nil (s : string) : "" +:+ s = s.
Proof. reflexivity. Qed.

Lemma append_cons (c : Ascii.ascii) (s1 s2 : string) :
  String c s1 +:+ s2 = String c (s1 +:+ s2).
Proof. reflexivity. Qed.

Lemma str_split_app (sep : Ascii.ascii) (a b : string) :
  has_sep sep a = false ->
  str_split sep (a +:+ String sep b) = a :: str_split sep b.
Proof.
  induction a as [|c a IH]; intros Ha.
  - rewrite append_nil. simpl. now rewrite Ascii.eqb_refl.
  - simpl in Ha. apply orb_false_iff in Ha as [Hc Ha].
    rewrite append_cons. simpl. rewrite Hc, IH by assumption. reflexivity.
Qed.

Lemma str_join_split (sep : Ascii.ascii) (s : string) :
  str_join sep (str_split sep s) = s.
Proof.
  induction s as [|c s IH]; [reflexivity|]. simpl.
  pose proof (str_split_nonempty sep s) as Hne.
  destruct (Ascii.eqb c sep) eqn:E.
  - apply Ascii.eqb_eq in E. subst c.
    destruct (str_split sep s) as [|p ps]; [contradiction|].
    change (str_join sep ("" :: p :: ps))
      with ("" +:+ String sep (str_join sep (p :: ps))).
    now rewrite IH.
  - destruct (str_split sep s) as [|p ps]; [contradiction|].
    destruct ps as [|p' ps].
    + simpl in *. now rewrite IH.
    + change (str_join sep (String c p :: p' :: ps))
        with (String c p +:+ String sep (str_join sep (p' :: ps))).
      change (str_join sep (p :: p' :: ps))
        with (p +:+ String sep (str_join sep (p' :: ps))) in IH.
      now rewrite append_cons, IH.
Qed.

Lemma parse_key_state_report (rid category : string) :
  has_sep slash rid = false ->
  parse_key ("fms/robot/" +:+ rid +:+ "/state/" +:+ category)
  = Some (rid, category).
Proof.
  intros Hrid. unfold parse_key.
  change ("fms/robot/" +:+ rid +:+ "/state/" +:+ category)
    with ("fms" +:+ String slash
            ("robot" +:+ String slash
               (rid +:+ String slash ("state" +:+ String slash category)))).
  rewrite !str_split_app by (assumption || reflexivity).
  pose proof (str_split_nonempty slash category) as Hne.
  pose proof (str_join_split slash category) as Hj.
  destruct (str_split slash category) as [|p ps]; [contradiction|].
  simpl. simpl in Hj. now rewrite Hj.
Qed.

#[local] Instance same_bus_preorder : PreOrder same_bus.
Proof.
  split.
  - intros w. split; reflexivity.
  - intros w1 w2 w3 [a1 b1] [a2 b2]. split; congruence.
Qed.

Lemma same_registry_bus (w w' : World) : same_registry w w' -> same_bus w w'.
Proof. intros (_ & Hb & Hs & _). now split. Qed.

Lemma sweep_loop_bus (current_time : Q) (threshold : Z)
    (ids offline_robots : list string) :
  preserves same_bus (sweep_loop current_time threshold ids offline_robots).
Proof.
  revert offline_robots.
  induction ids as [|rid ids IH]; intros offline_robots; simpl.
  - frame_step.
  - frame_step; [frame_step|].
    destruct (dict_get rid (robot_states a)) as [robot|]; [|apply IH].
    destruct (is_silent current_time threshold robot); [|apply IH].
    frame_step; [frame_step; intros w; now split|].
    frame_step; [|apply IH].
    eapply preserves_weaken;
      [apply same_registry_bus | apply broadcast_update_frame].
Qed.

Lemma locked_sweep_loop_bus (current_time : Q) (threshold : Z) :
  preserves same_bus
    (with_lock
       (w <- get_world ;;
        sweep_loop current_time threshold (dict_keys (robot_states w)) [])).
Proof.
  frame_step.
  - intros b w. now split.
  - frame_step; [frame_step | apply sweep_loop_bus].
Qed.

Lemma publish_offline_bus (current_time : Q) (l : list string) (w : World) :
  publish_offline current_time l w =
  Returned tt
    (if zenoh_session w then
       set_bus (bus w ++
                map (fun rid =>
                       (offline_topic, offline_event rid current_time,
                        DEFAULT)) l) w
     else w).
Proof.
  revert w. induction l as [|rid l IH]; intros w; simpl.
  - unfold ret. destruct (zenoh_session w); [|reflexivity].
    rewrite app_nil_r. now destruct w.
  - unfold bind, zenoh_publish. destruct (zenoh_session w) eqn:Hs.
    + rewrite IH. simpl. rewrite Hs. unfold set_bus. simpl.
      now rewrite <- app_assoc.
    + rewrite IH. now rewrite Hs.
Qed.




(** ** The fan-out *)

Lemma broadcast_loop_succeeds (fuel i : nat) (msg : json) (w : World) :
  all_sends_succeed w ->
  length (websocket_connections w) <= fuel + i ->
  broadcast_loop fuel i msg w =
  Returned tt (delivered msg (drop i (websocket_connections w)) w).
Proof.
  revert i w. induction fuel as [|fuel IH]; intros i w Hok Hlen; simpl.
  - rewrite drop_ge by (simpl in Hlen; lia).
    unfold ret, delivered. simpl. rewrite app_nil_r. now destruct w.
  - unfold bind at 1. unfold get_world.
    destruct (websocket_connections w !! i) as [c|] eqn:Hc.
    + unfold bind, try_except, send_text.
      rewrite (Hok c) by (eapply list_elem_of_In, list_elem_of_lookup_2, Hc).
      rewrite IH; [|exact Hok|simpl; lia].
      unfold delivered. simpl.
      rewrite (drop_S _ _ _ Hc). simpl. now rewrite <- app_assoc.
    + apply lookup_ge_None in Hc. rewrite drop_ge by assumption.
      unfold ret, delivered. simpl. rewrite app_nil_r. now destruct w.
Qed.

(** With every socket healthy, one [broadcast_update] hands the envelope
    to each registered observer, in order, and returns. *)
Lemma broadcast_update_succeeds (rid state_type : string) (data : json)
    (w : World) :
  all_sends_succeed w ->
  broadcast_update rid state_type data w =
  Returned tt
    (delivered (state_update_msg rid state_type data (clock w (ticks w)))
               (websocket_connections w) (set_ticks (S (ticks w)) w)).
Proof.
  intros Hok. unfold broadcast_update, bind, time_time, get_world.
  rewrite broadcast_loop_succeeds; [reflexivity|exact Hok|simpl; lia].
Qed.

(** Under the lock, a failing send leaves the pass parked at
    [remove_connection], with the observer list as it was. *)
Lemma broadcast_loop_parks (fuel i : nat) (msg : json) (w : World) :
  lock w = true ->
  Exists (fun c => send_fails w c = true) (drop i (websocket_connections w)) ->
  length (websocket_connections w) <= fuel + i ->
  exists w',
    broadcast_loop fuel i msg w = Blocked w' /\
    websocket_connections w' = websocket_connections w /\
    robot_states w' = robot_states w /\ bus w' = bus w /\ lock w' = true.
Proof.
  revert i w. induction fuel as [|fuel IH]; intros i w Hl Hex Hlen.
  - rewrite drop_ge in Hex by (simpl in Hlen; lia). inversion Hex.
  - simpl. unfold bind at 1. unfold get_world.
    destruct (websocket_connections w !! i) as [c|] eqn:Hc.
    + rewrite (drop_S _ _ _ Hc) in Hex.
      unfold bind at 1. unfold try_except, send_text.
      destruct (send_fails w c) eqn:Hf.
      * unfold remove_connection. rewrite with_lock_held by assumption.
        exists w. auto.
      * apply Exists_cons in Hex as [Hex|Hex]; [congruence|].
        destruct (IH (S i) (set_sent (sent w ++ [(c, msg)]) w))
          as (w' & Hb & H1 & H2 & H3 & H4); auto; [simpl; lia|].
        exists w'. auto.
    + apply lookup_ge_None in Hc. rewrite drop_ge in Hex by assumption.
      inversion Hex.
Qed.

(** So an update that meets one failing observer never returns, removes
    nobody, and keeps the lock for good. *)
Lemma update_parks_on_failing_observer (w : World) (rid state_type : string)
    (data : json) (c : WebSocket) :
  lock w = false ->
  In c (websocket_connections w) ->
  send_fails w c = true ->
  exists w',
    update_robot_state rid state_type data w = Blocked w' /\
    websocket_connections w' = websocket_connections w /\ lock w' = true.
Proof.
  intros Hl Hin Hf. unfold update_robot_state.
  rewrite with_lock_free by assumption.
  unfold bind at 1. unfold modify at 1. unfold bind at 1.
  unfold time_time at 1. unfold bind at 1. unfold modify at 1.
  unfold broadcast_update. unfold bind at 1. unfold time_time at 1.
  unfold bind at 1. unfold get_world.
  match goal with
  | |- context [broadcast_loop ?f 0 ?m ?w0] =>
      destruct (broadcast_loop_parks f 0 m w0)
        as (w' & Hb & Hc & _ & _ & Hl')
  end.
  - reflexivity.
  - simpl. apply Exists_exists. exists c.
    split; [apply list_elem_of_In; exact Hin | exact Hf].
  - simpl. lia.
  - rewrite Hb. exists w'. auto.
Qed.

Lemma list_remove_length (x : WebSocket) (l : list WebSocket) :
  length (list_remove x l) <= length l.
Proof.
  induction l as [|y l IH]; simpl; [lia|].
  destruct (Nat.eqb y x); simpl; lia.
Qed.

Lemma send_or_remove_shrinks (c : WebSocket) (msg : json) (w w' : World) :
  try_except (send_text c msg) (remove_connection c) w = Returned tt w' ->
  length (websocket_connections w') <= length (websocket_connections w).
Proof.
  unfold try_except, send_text. destruct (send_fails w c).
  - unfold remove_connection. destruct (lock w) eqn:Hl.
    + rewrite with_lock_held by assumption. discriminate.
    + rewrite with_lock_free by assumption. unfold modify.
      intros [= <-]. simpl. apply list_remove_length.
  - intros [= <-]. simpl. lia.
Qed.

(** Fuel: the iterator stops by itself within as many rounds as the list
    is long, so any two supplies that cover the rest of the list give the
    same pass. *)
Lemma broadcast_loop_fuel (fuel1 fuel2 i : nat) (msg : json) (w : World) :
  length (websocket_connections w) <= fuel1 + i ->
  length (websocket_connections w) <= fuel2 + i ->
  broadcast_loop fuel1 i msg w = broadcast_loop fuel2 i msg w.
Proof.
  revert fuel2 i w.
  induction fuel1 as [|fuel1 IH]; intros fuel2 i w H1 H2.
  - destruct fuel2 as [|fuel2]; [reflexivity|]. simpl.
    unfold bind at 1. unfold get_world.
    now rewrite (proj2 (lookup_ge_None _ _)) by (simpl in H1; lia).
  - simpl. unfold bind at 1. unfold get_world.
    destruct (websocket_connections w !! i) as [c|] eqn:Hc.
    + destruct fuel2 as [|fuel2].
      { apply lookup_lt_Some in Hc. simpl in H2. lia. }
      simpl. unfold bind at 2. unfold get_world. rewrite Hc.
      unfold bind.
      destruct (try_except _ _ w) as [[] w'|e w'|w'] eqn:E; try reflexivity.
      apply send_or_remove_shrinks in E. apply IH; lia.
    + destruct fuel2 as [|fuel2]; [reflexivity|]. simpl.
      unfold bind at 1. unfold get_world. now rewrite Hc.
Qed.

(** C7, on the code.  Observers 1 and 2 are registered and the socket of
    observer 1 is broken.  An applied update then never returns to its
    caller: the pass stops at observer 1, which stays registered, observer
    2 receives nothing, and the lock stays held. *)
Theorem failed_send_parks_the_fanout :
  exists w',
    update_robot_state "r1" "pose" (JObj []) two_observers = Blocked w' /\
    websocket_connections w' = [1; 2]%nat /\
    sent w' = [] /\
    lock w' = true.
Proof. eexists. vm_compute. repeat split; reflexivity. Qed.

(** The pass run without the lock shows the second slip: removing the
    failed observer 1 shifts the live list under the iterator, so observer
    2 is skipped and only observer 3 receives the envelope. *)
Example removal_skips_the_next_observer :
  exists w',
    broadcast_update "r1" "pose" (JObj []) three_observers = Returned tt w' /\
    websocket_connections w' = [2; 3]%nat /\
    map fst (sent w') = [3]%nat.
Proof. eexists. vm_compute. repeat split; reflexivity. Qed.

(** ** The liveness sweep *)

Lemma count_if_app {A : Type} (p : A -> bool) (l1 l2 : list A) :
  count_if p (l1 ++ l2) = count_if p l1 + count_if p l2.
Proof. induction l1 as [|x l1 IH]; simpl; [reflexivity|]. rewrite IH. lia. Qed.

Lemma count_offline_events (rid : string) (t : Q) (l : list string) :
  count_if (is_offline_event rid)
    (map (fun r => (offline_topic, offline_event r t, DEFAULT)) l) =
  count_if (String.eqb rid) l.
Proof.
  induction l as [|r l IH]; simpl; [reflexivity|]. rewrite IH.
  now rewrite andb_true_r, (String.eqb_sym r rid).
Qed.

Lemma count_offline_envelopes (rid r : string) (c : WebSocket) (t : Q)
    (cs : list WebSocket) :
  count_if (is_offline_envelope rid c)
    (map (fun c' => (c', state_update_msg r "status" (JStr "OFFLINE") t)) cs) =
  if String.eqb rid r then count_if (fun c' => Nat.eqb c' c) cs else 0.
Proof.
  induction cs as [|c' cs IH]; simpl.
  - now destruct (String.eqb rid r).
  - rewrite IH, (String.eqb_sym r rid).
    destruct (String.eqb rid r), (Nat.eqb c' c); reflexivity.
Qed.

Lemma is_silent_offline (t : Q) (T : Z) (robot : RobotState) :
  is_silent t T (set_status (JStr "OFFLINE") robot) = false.
Proof. unfold is_silent. simpl. apply andb_false_r. Qed.

Lemma dict_get_keys {V : Type} (k : string) (d : dict V) (v : V) :
  dict_get k d = Some v -> existsb (String.eqb k) (dict_keys d) = true.
Proof.
  induction d as [|[k' v'] d IH]; simpl; [discriminate|].
  rewrite (String.eqb_sym k k'). destruct (String.eqb k' k); auto.
Qed.

Lemma fires_skip (t : Q) (T : Z) (rid r : string) (ids : list string)
    (w : World) :
  (String.eqb rid r = true -> silent_at t T rid w = false) ->
  fires t T rid (r :: ids) w = fires t T rid ids w.
Proof.
  intros H. unfold fires. simpl. destruct (String.eqb rid r); [|reflexivity].
  rewrite H by reflexivity. now rewrite !andb_false_r.
Qed.

(** One pass over [ids] with healthy sockets: it returns; it takes [rid]
    offline exactly when [rid] is among [ids] and silent, and then lists it
    once and hands each registered observer one envelope for it. *)
Lemma sweep_loop_once (t : Q) (T : Z) (rid : string) (ids acc : list string)
    (w : World) :
  all_sends_succeed w ->
  exists l w',
    sweep_loop t T ids acc w = Returned (acc ++ l)%list w' /\
    websocket_connections w' = websocket_connections w /\
    lock w' = lock w /\ bus w' = bus w /\
    zenoh_session w' = zenoh_session w /\
    send_fails w' = send_fails w /\ clock w' = clock w /\
    count_if (String.eqb rid) l = (if fires t T rid ids w then 1 else 0) /\
    dict_get rid (robot_states w') =
      (if fires t T rid ids w
       then option_map (set_status (JStr "OFFLINE"))
                       (dict_get rid (robot_states w))
       else dict_get rid (robot_states w)) /\
    forall c,
      offline_envelopes rid c w' =
      offline_envelopes rid c w +
      (if fires t T rid ids w then registrations c w else 0).
Proof.
  revert acc w. induction ids as [|r ids IH]; intros acc w Hok.
  - exists [], w. simpl. unfold ret, fires. simpl. rewrite app_nil_r.
    repeat split; auto.
  - simpl. unfold bind at 1. unfold get_world.
    destruct (dict_get r (robot_states w)) as [robot|] eqn:Hr.
    2:{ rewrite fires_skip.
        - apply IH, Hok.
        - intros E. apply String.eqb_eq in E. subst r.
          unfold silent_at. now rewrite Hr. }
    destruct (is_silent t T robot) eqn:Hsil.
    2:{ rewrite fires_skip.
        - apply IH, Hok.
        - intros E. apply String.eqb_eq in E. subst r.
          unfold silent_at. now rewrite Hr. }
    unfold bind at 1. unfold modify at 1.
    set (w1 := set_robot_states (mark_offline r (robot_states w)) w).
    assert (all_sends_succeed w1) as Hok1 by exact Hok.
    unfold bind at 1. rewrite broadcast_update_succeeds by exact Hok1.
    set (w2 := delivered _ _ _).
    assert (all_sends_succeed w2) as Hok2 by exact Hok.
    destruct (IH (acc ++ [r])%list w2 Hok2)
      as (l & w' & Hrun & Hc & Hl & Hb & Hz & Hf & Hk & Hn & Hg & He).
    exists (r :: l), w'.
    split; [rewrite Hrun; now rewrite <- app_assoc|].
    repeat (split; [assumption|]).
    assert (forall c, offline_envelopes rid c w2 =
                      offline_envelopes rid c w +
                      (if String.eqb rid r then registrations c w else 0))
      as He2.
    { intros c. unfold offline_envelopes, w2, delivered. simpl.
      rewrite count_if_app, count_offline_envelopes. reflexivity. }
    assert (dict_get rid (robot_states w2) =
            if String.eqb rid r
            then Some (set_status (JStr "OFFLINE") robot)
            else dict_get rid (robot_states w)) as Hg2.
    { unfold w2, delivered, w1. simpl. rewrite mark_offline_lookup.
      rewrite (String.eqb_sym r rid).
      destruct (String.eqb rid r) eqn:E; [|reflexivity].
      apply String.eqb_eq in E. subst r. now rewrite Hr. }
    destruct (String.eqb rid r) eqn:E.
    + apply String.eqb_eq in E. subst r.
      assert (fires t T rid ids w2 = false) as Hno.
      { unfold fires, silent_at. rewrite Hg2, is_silent_offline.
        apply andb_false_r. }
      assert (fires t T rid (rid :: ids) w = true) as Hyes.
      { unfold fires, silent_at. simpl.
        now rewrite String.eqb_refl, Hr, Hsil. }
      rewrite Hno in Hn, Hg, He. rewrite Hyes.
      split; [simpl; rewrite String.eqb_refl, Hn; reflexivity|].
      split; [rewrite Hr; simpl; etransitivity; [exact Hg | exact Hg2]|].
      intros c. rewrite He, He2. lia.
    + assert (fires t T rid (r :: ids) w = fires t T rid ids w2) as Hsame.
      { unfold fires, silent_at. rewrite Hg2. simpl. now rewrite E. }
      rewrite Hsame.
      split; [simpl; rewrite E; exact Hn|].
      split; [etransitivity; [exact Hg | now rewrite <- Hsame, Hg2]|].
      intros c. rewrite He, He2.
      change (registrations c w2) with (registrations c w).
      destruct (fires t T rid ids w2); lia.
Qed.

Lemma fires_on_keys (t : Q) (T : Z) (rid : string) (w : World) :
  fires t T rid (dict_keys (robot_states w)) w = silent_at t T rid w.
Proof.
  unfold fires, silent_at.
  destruct (dict_get rid (robot_states w)) as [robot|] eqn:Hg.
  - now rewrite (dict_get_keys _ _ _ Hg).
  - apply andb_false_r.
Qed.

(** One healthy sweep, seen from robot [rid]. *)
Lemma sweep_once (T : Z) (rid : string) (w : World) :
  lock w = false ->
  zenoh_session w = true ->
  all_sends_succeed w ->
  exists w',
    sweep T w = Returned tt w' /\
    lock w' = false /\ zenoh_session w' = true /\ all_sends_succeed w' /\
    websocket_connections w' = websocket_connections w /\
    dict_get rid (robot_states w') =
      (if silent_at (clock w (ticks w)) T rid w
       then option_map (set_status (JStr "OFFLINE"))
                       (dict_get rid (robot_states w))
       else dict_get rid (robot_states w)) /\
    offline_events rid w' =
      offline_events rid w +
      (if silent_at (clock w (ticks w)) T rid w then 1 else 0) /\
    forall c,
      offline_envelopes rid c w' =
      offline_envelopes rid c w +
      (if silent_at (clock w (ticks w)) T rid w
       then registrations c w else 0).
Proof.
  intros Hl Hs Hok. unfold sweep. unfold bind at 1. unfold time_time at 1.
  set (t := clock w (ticks w)).
  set (w1 := set_lock true (set_ticks (S (ticks w)) w)).
  unfold bind at 1. rewrite with_lock_free by exact Hl.
  fold w1. unfold bind at 1. unfold get_world.
  assert (all_sends_succeed w1) as Hok1 by exact Hok.
  destruct (sweep_loop_once t T rid (dict_keys (robot_states w1)) [] w1 Hok1)
    as (l & w2 & Hrun & Hc & Hlk & Hb & Hz & Hf & Hk & Hn & Hg & He).
  rewrite fires_on_keys in Hn, Hg, He.
  change (silent_at t T rid w1) with (silent_at t T rid w) in Hn, Hg, He.
  rewrite Hrun. simpl app. rewrite publish_offline_bus.
  change (zenoh_session (set_lock false w2)) with (zenoh_session w2).
  rewrite Hz. change (zenoh_session w1) with (zenoh_session w). rewrite Hs.
  eexists. split; [reflexivity|].
  split; [reflexivity|].
  split; [simpl; now rewrite Hz|].
  split.
  { intros c. simpl. rewrite Hc, Hf. apply Hok. }
  split; [exact Hc|].
  split; [exact Hg|].
  split.
  { unfold offline_events. simpl. rewrite Hb, count_if_app.
    rewrite count_offline_events, Hn. reflexivity. }
  exact He.
Qed.





(** The defect of the fan-out reaches the sweep: with the one observer's
    socket broken, the first sweep marks "r2" offline, parks on the lock
    inside the broadcast, and the [robot_offline] event is never
    published, however many rounds are asked for. *)
Example sweep_parks_on_failing_observer (n : nat) :
  exists w',
    check_offline_robots (S n) 5 silent_r2_broken_observer = Blocked w' /\
    option_map status (dict_get "r2" (robot_states w')) =
      Some (JStr "OFFLINE") /\
    offline_events "r2" w' = 0 /\ lock w' = true.
Proof. eexists. simpl. unfold bind. vm_compute. repeat split; reflexivity. Qed.

(** * Further properties of the server *)

(** ** The topic parser is the inverse of the topic layout *)

Lemma str_split_parts_clean (sep : Ascii.ascii) (s : string) :
  Forall (fun p => has_sep sep p = false) (str_split sep s).
Proof.
  induction s as [|c s IH]; simpl.
  - repeat constructor.
  - destruct (Ascii.eqb c sep) eqn:E.
    + constructor; [reflexivity | exact IH].
    + destruct (str_split sep s) as [|p ps].
      * repeat constructor. simpl. now rewrite E.
      * inversion IH as [|? ? Hp Hps]; subst.
        constructor; [simpl; now rewrite E, Hp | exact Hps].
Qed.

Lemma parse_key_sound (key rid category : string) :
  parse_key key = Some (rid, category) ->
  has_sep slash rid = false /\
  key = "fms/robot/" +:+ rid +:+ "/state/" +:+ category.
Proof.
  unfold parse_key.
  pose proof (str_join_split slash key) as Hj.
  pose proof (str_split_parts_clean slash key) as Hc.
  destruct (str_split slash key) as [|p0 [|p1 [|p2 [|p3 [|p4 rest]]]]];
    simpl; try discriminate.
  destruct (String.eqb p0 "fms") eqn:E0; [|discriminate].
  destruct (String.eqb p1 "robot") eqn:E1; [|discriminate].
  destruct (String.eqb p3 "state") eqn:E3; [|discriminate].
  apply String.eqb_eq in E0, E1, E3. subst p0 p1 p3.
  simpl. intros [= <- <-]. split.
  - do 2 apply Forall_inv_tail in Hc. now apply Forall_inv in Hc.
  - rewrite <- Hj. reflexivity.
Qed.

(** X1.  [parse_key] accepts a key exactly when it reads
    [fms/robot/<id>/state/<category>] with an id free of slashes, and then
    returns that id and that category (which may itself contain slashes or
    be empty); every other key is refused. *)
Theorem parse_key_iff (key rid category : string) :
  parse_key key = Some (rid, category) <->
  has_sep slash rid = false /\
  key = "fms/robot/" +:+ rid +:+ "/state/" +:+ category.
Proof.
  split; [apply parse_key_sound|].
  intros [Hrid ->]. now apply parse_key_state_report.
Qed.



(** ** What a run does to the registry as a whole *)

#[local] Instance registry_kept_preorder : PreOrder registry_kept.
Proof.
  split.
  - intros w. unfold registry_kept. auto.
  - intros w1 w2 w3 (a1 & b1 & c1) (a2 & b2 & c2).
    unfold registry_kept. repeat split; [congruence | congruence | lia].
Qed.

#[local] Instance clock_runs_preorder : PreOrder clock_runs.
Proof.
  split.
  - intros w. unfold clock_runs. auto.
  - intros w1 w2 w3 (a1 & b1) (a2 & b2).
    unfold clock_runs. split; [congruence | lia].
Qed.

Lemma set_status_offline_twice (x : option RobotState) :
  option_map (set_status (JStr "OFFLINE"))
             (option_map (set_status (JStr "OFFLINE")) x)
  = option_map (set_status (JStr "OFFLINE")) x.
Proof. now destruct x. Qed.

#[local] Instance only_marks_offline_preorder : PreOrder only_marks_offline.
Proof.
  split.
  - intros w. split; auto.
  - intros w1 w2 w3 [K1 H1] [K2 H2]. split; [congruence|].
    intros rid. destruct (H1 rid) as [E1|E1], (H2 rid) as [E2|E2];
      rewrite E2, E1; auto.
    right. apply set_status_offline_twice.
Qed.

#[local] Instance keys_grow_preorder : PreOrder keys_grow.
Proof.
  split.
  - intros w. exists []. now rewrite app_nil_r.
  - intros w1 w2 w3 [l1 H1] [l2 H2]. exists (l1 ++ l2)%list.
    now rewrite H2, H1, app_assoc.
Qed.


Lemma registry_kept_marks (w w' : World) :
  registry_kept w w' -> only_marks_offline w w'.
Proof. intros (H & _). split; [now rewrite H | intros rid; left; now rewrite H]. Qed.

Lemma registry_kept_keys (w w' : World) :
  registry_kept w w' -> keys_grow w w'.
Proof. intros (H & _). exists []. now rewrite H, app_nil_r. Qed.

Lemma time_time_kept : preserves registry_kept time_time.
Proof. intros w. unfold registry_kept. simpl. auto. Qed.

Lemma set_lock_kept (b : bool) (w : World) : registry_kept w (set_lock b w).
Proof. unfold registry_kept. simpl. auto. Qed.

Lemma send_text_kept (c : WebSocket) (msg : json) :
  preserves registry_kept (send_text c msg).
Proof.
  intros w. unfold send_text. destruct (send_fails w c); simpl;
    unfold registry_kept; simpl; auto.
Qed.

Lemma remove_connection_kept (c : WebSocket) :
  preserves registry_kept (remove_connection c).
Proof.
  unfold remove_connection. frame_step.
  - apply set_lock_kept.
  - frame_step. intros w. unfold registry_kept. simpl. auto.
Qed.

Lemma add_connection_kept (c : WebSocket) :
  preserves registry_kept (add_connection c).
Proof.
  unfold add_connection. frame_step.
  - apply set_lock_kept.
  - frame_step. intros w. unfold registry_kept. simpl. auto.
Qed.

Lemma broadcast_loop_kept (fuel i : nat) (msg : json) :
  preserves registry_kept (broadcast_loop fuel i msg).
Proof.
  revert i. induction fuel as [|fuel IH]; intros i; simpl.
  - frame_step.
  - frame_step; [frame_step|].
    destruct (websocket_connections a !! i); [|frame_step].
    frame_step; [|apply IH].
    frame_step; [apply send_text_kept | apply remove_connection_kept].
Qed.

Lemma broadcast_update_kept (rid state_type : string) (data : json) :
  preserves registry_kept (broadcast_update rid state_type data).
Proof.
  unfold broadcast_update. frame_step; [apply time_time_kept|].
  frame_step; [frame_step|]. apply broadcast_loop_kept.
Qed.

Lemma zenoh_publish_kept (key : string) (data : json) (p : Priority) :
  preserves registry_kept (zenoh_publish key data p).
Proof.
  intros w. unfold zenoh_publish. destruct (zenoh_session w); simpl;
    unfold registry_kept; simpl; auto.
Qed.

Lemma publish_offline_kept (t : Q) (l : list string) :
  preserves registry_kept (publish_offline t l).
Proof.
  induction l as [|rid l IH]; simpl.
  - frame_step.
  - frame_step; [apply zenoh_publish_kept | apply IH].
Qed.

Lemma mark_offline_keys (rid : string) (rs : dict RobotState) :
  dict_keys (mark_offline rid rs) = dict_keys rs.
Proof.
  unfold mark_offline. destruct (dict_get rid rs) as [robot|] eqn:E; auto.
  eapply dict_keys_set_present, E.
Qed.

Lemma mark_offline_marks (rid : string) (w : World) :
  only_marks_offline w
    (set_robot_states (mark_offline rid (robot_states w)) w).
Proof.
  split; [apply mark_offline_keys|].
  intros rid'. simpl. rewrite mark_offline_lookup.
  destruct (String.eqb rid rid'); auto.
Qed.

Lemma sweep_loop_marks (t : Q) (T : Z) (ids acc : list string) :
  preserves only_marks_offline (sweep_loop t T ids acc).
Proof.
  revert acc. induction ids as [|rid ids IH]; intros acc; simpl.
  - frame_step.
  - frame_step; [frame_step|].
    destruct (dict_get rid (robot_states a)) as [robot|]; [|apply IH].
    destruct (is_silent t T robot); [|apply IH].
    frame_step; [frame_step; apply mark_offline_marks|].
    frame_step; [|apply IH].
    eapply preserves_weaken;
      [apply registry_kept_marks | apply broadcast_update_kept].
Qed.

Lemma sweep_marks (T : Z) : preserves only_marks_offline (sweep T).
Proof.
  unfold sweep. frame_step.
  { eapply preserves_weaken; [apply registry_kept_marks | apply time_time_kept]. }
  frame_step.
  - frame_step.
    + intros b w. apply registry_kept_marks, set_lock_kept.
    + frame_step; [frame_step | apply sweep_loop_marks].
  - eapply preserves_weaken;
      [apply registry_kept_marks | apply publish_offline_kept].
Qed.

(** X3.  However many sweeps run, and whether or not they get through,
    the registry keeps the same robots in the same order, and each record
    is either exactly as it was or as it was with its status set to
    "OFFLINE": a sweep never touches pose, battery, [last_seen] or custom
    state, and never adds or removes a record. *)
Theorem sweeps_only_mark_offline (n : nat) (T : Z) (w : World) :
  dict_keys (robot_states (world_of (check_offline_robots n T w)))
  = dict_keys (robot_states w) /\
  forall rid,
    dict_get rid (robot_states (world_of (check_offline_robots n T w)))
    = dict_get rid (robot_states w) \/
    dict_get rid (robot_states (world_of (check_offline_robots n T w)))
    = option_map (set_status (JStr "OFFLINE"))
                 (dict_get rid (robot_states w)).
Proof.
  change (only_marks_offline w (world_of (check_offline_robots n T w))).
  revert w. change (preserves only_marks_offline (check_offline_robots n T)).
  induction n as [|n IH]; simpl.
  - frame_step.
  - frame_step; [apply sweep_marks | apply IH].
Qed.

Lemma dict_keys_set {V : Type} (k : string) (v : V) (d : dict V) :
  dict_keys (dict_set k v d) =
  (dict_keys d ++ (if dict_mem k d then [] else [k]))%list.
Proof.
  unfold dict_keys, dict_mem. induction d as [|[k' v'] d IH]; simpl.
  - reflexivity.
  - destruct (String.eqb k' k) eqn:E; simpl.
    + now rewrite app_nil_r.
    + now rewrite IH.
Qed.

Lemma upsert_keys (t : Q) (rid state_type : string) (data : json)
    (rs : dict RobotState) :
  dict_keys (upsert t rid state_type data rs) =
  (dict_keys rs ++ (if dict_mem rid rs then [] else [rid]))%list.
Proof.
  rewrite upsert_unfold.
  rewrite (dict_keys_set_present _ _ _ _ (register_lookup rid rs)).
  unfold register. destruct (dict_mem rid rs) eqn:E.
  - now rewrite app_nil_r.
  - rewrite dict_keys_set. now rewrite E.
Qed.






Lemma step_keys (i : Input) : preserves keys_grow (step i).
Proof.
  destruct i as [rid state_type data|T]; simpl.
  - intros w. destruct (lock w) eqn:Hl.
    + rewrite update_robot_state_held by assumption. simpl. reflexivity.
    + unfold keys_grow. rewrite update_robot_state_registry by assumption.
      rewrite upsert_keys. eauto.
  - intros w. destruct (sweep_marks T w) as [K _].
    exists []. now rewrite K, app_nil_r.
Qed.

Lemma run_preserves (R : World -> World -> Prop) `{!PreOrder R}
    (inputs : list Input) :
  (forall i, preserves R (step i)) -> preserves R (run inputs).
Proof.
  intros Hstep. induction inputs as [|i inputs IH]; simpl.
  - frame_step.
  - frame_step; [apply Hstep | apply IH].
Qed.

Lemma run_invariant (P : World -> Prop) (inputs : list Input) :
  (forall i w, P w -> P (world_of (step i w))) ->
  forall w, P w -> P (world_of (run inputs w)).
Proof.
  intros Hstep. induction inputs as [|i inputs IH]; intros w Hw; simpl.
  - exact Hw.
  - unfold bind. specialize (Hstep i w Hw).
    destruct (step i w) as [u w'|e w'|w']; simpl in *; auto.
Qed.

(** X4.  Through any run of applied updates and sweeps the registry only
    grows: the robots known before are all still there, in the same order,
    and new ones are appended behind them.  No record is ever deleted. *)
Theorem run_keeps_every_robot (inputs : list Input) (w : World) :
  exists l,
    dict_keys (robot_states (world_of (run inputs w)))
    = (dict_keys (robot_states w) ++ l)%list.
Proof.
  change (keys_grow w (world_of (run inputs w))).
  apply run_preserves; [typeclasses eauto | apply step_keys].
Qed.

Lemma step_keyed_by_id (i : Input) (w : World) :
  keyed_by_id w -> keyed_by_id (world_of (step i w)).
Proof.
  intros Hk. destruct i as [rid state_type data|T]; simpl.
  - destruct (lock w) eqn:Hl.
    { now rewrite update_robot_state_held. }
    intros rid' robot. rewrite update_robot_state_registry by assumption.
    destruct (String.eqb rid rid') eqn:E.
    + apply String.eqb_eq in E. subst rid'. rewrite upsert_lookup.
      intros [= <-]. unfold touched. rewrite apply_field_robot_id. simpl.
      destruct (dict_get rid (robot_states w)) as [r0|] eqn:Hg; simpl; auto.
    + apply String.eqb_neq in E. rewrite upsert_other by assumption.
      apply Hk.
  - intros rid robot Hg. destruct (sweep_marks T w) as [_ H].
    destruct (H rid) as [E|E]; rewrite E in Hg.
    + now apply Hk.
    + destruct (dict_get rid (robot_states w)) as [r0|] eqn:Hg0;
        [|discriminate].
      injection Hg as <-. simpl. now apply Hk.
Qed.

Lemma get_robot_returns (w w' : World) (rid : string) (robot : RobotState) :
  get_robot rid w = Returned robot w' ->
  dict_get rid (robot_states w) = Some robot.
Proof.
  unfold get_robot. destruct (lock w) eqn:Hl.
  - rewrite with_lock_held by assumption. discriminate.
  - rewrite with_lock_free by assumption. unfold bind, get_world. simpl.
    destruct (dict_get rid (robot_states w)); simpl; [|discriminate].
    now intros [= <- _].
Qed.

(** X5.  In a registry built from nothing by applied updates and sweeps,
    every record carries the id it is stored under; so whenever [get_robot]
    answers a lookup, the record it returns is the one of the robot asked
    for. *)
Theorem lookup_answers_the_asked_robot (w0 w' : World) (inputs : list Input)
    (rid : string) (robot : RobotState) :
  robot_states w0 = [] ->
  get_robot rid (world_of (run inputs w0)) = Returned robot w' ->
  robot_id robot = rid.
Proof.
  intros Hempty Hget. apply get_robot_returns in Hget.
  revert Hget. apply (run_invariant keyed_by_id inputs step_keyed_by_id).
  intros rid' r. rewrite Hempty. discriminate.
Qed.



Lemma lookup_answers_the_asked_robot_witness :
  robot_states boot = [] /\
  exists robot w',
    get_robot "r1" (world_of (run quiet_run boot)) = Returned robot w' /\
    robot_id robot = "r1".
Proof.
  split; [reflexivity|].
  destruct (get_robot "r1" (world_of (run quiet_run boot)))
    as [robot w'| |] eqn:E; try (vm_compute in E; discriminate).
  exists robot, w'. split; [reflexivity|].
  exact (lookup_answers_the_asked_robot boot w' quiet_run "r1" robot
           eq_refl E).
Defined.


(** ** The lock *)

Lemma balanced_ret {A : Type} (a : A) : lock_balanced (ret a).
Proof. intros w. reflexivity. Qed.

Lemma balanced_raise {A : Type} (e : Exn) : lock_balanced (@raise A e).
Proof. intros w. reflexivity. Qed.

Lemma balanced_get_world : lock_balanced get_world.
Proof. intros w. reflexivity. Qed.

Lemma balanced_modify (f : World -> World) :
  (forall w, lock (f w) = lock w) -> lock_balanced (modify f).
Proof. intros H w. apply H. Qed.

Lemma balanced_time_time : lock_balanced time_time.
Proof. intros w. reflexivity. Qed.

Lemma balanced_bind {A B : Type} (m : M A) (k : A -> M B) :
  lock_balanced m -> (forall a, lock_balanced (k a)) ->
  lock_balanced (bind m k).
Proof.
  intros Hm Hk w. unfold bind. specialize (Hm w).
  destruct (m w) as [a w1|e w1|w1]; auto.
  specialize (Hk a w1). destruct (k a w1); congruence.
Qed.

Lemma balanced_try_except {A : Type} (m h : M A) :
  lock_balanced m -> lock_balanced h -> lock_balanced (try_except m h).
Proof.
  intros Hm Hh w. unfold try_except. specialize (Hm w).
  destruct (m w) as [a w1|e w1|w1]; auto.
  specialize (Hh w1). destruct (h w1); congruence.
Qed.

Lemma balanced_with_lock {A : Type} (body : M A) :
  lock_balanced body -> lock_balanced (with_lock body).
Proof.
  intros Hb w. destruct (lock w) eqn:Hl.
  - now rewrite with_lock_held.
  - rewrite with_lock_free by assumption.
    specialize (Hb (set_lock true w)).
    destruct (body (set_lock true w)); simpl; auto.
Qed.

Ltac balance :=
  repeat lazymatch goal with
    | |- lock_balanced (with_lock _) => apply balanced_with_lock
    | |- lock_balanced (try_except _ _) => apply balanced_try_except
    | |- lock_balanced (bind _ _) => apply balanced_bind; [|intros ?]
    | |- lock_balanced (ret _) => apply balanced_ret
    | |- lock_balanced (raise _) => apply balanced_raise
    | |- lock_balanced get_world => apply balanced_get_world
    | |- lock_balanced time_time => apply balanced_time_time
    | |- lock_balanced (modify _) =>
        apply balanced_modify; intros ?; reflexivity
    end.

Lemma balanced_send_text (c : WebSocket) (msg : json) :
  lock_balanced (send_text c msg).
Proof. intros w. unfold send_text. now destruct (send_fails w c). Qed.

Lemma balanced_zenoh_publish (key : string) (data : json) (p : Priority) :
  lock_balanced (zenoh_publish key data p).
Proof. intros w. unfold zenoh_publish. now destruct (zenoh_session w). Qed.

Lemma balanced_add_connection (c : WebSocket) :
  lock_balanced (add_connection c).
Proof. unfold add_connection. balance. Qed.

Lemma balanced_remove_connection (c : WebSocket) :
  lock_balanced (remove_connection c).
Proof. unfold remove_connection. balance. Qed.

Lemma balanced_broadcast_loop (fuel i : nat) (msg : json) :
  lock_balanced (broadcast_loop fuel i msg).
Proof.
  revert i. induction fuel as [|fuel IH]; intros i; simpl; balance.
  destruct (websocket_connections a !! i); balance;
    first [apply balanced_send_text | apply balanced_remove_connection
          | apply IH].
Qed.

Lemma balanced_broadcast_update (rid state_type : string) (data : json) :
  lock_balanced (broadcast_update rid state_type data).
Proof. unfold broadcast_update. balance. apply balanced_broadcast_loop. Qed.

Lemma balanced_update_robot_state (rid state_type : string) (data : json) :
  lock_balanced (update_robot_state rid state_type data).
Proof.
  unfold update_robot_state. balance. apply balanced_broadcast_update.
Qed.

Lemma balanced_sweep_loop (t : Q) (T : Z) (ids acc : list string) :
  lock_balanced (sweep_loop t T ids acc).
Proof.
  revert acc. induction ids as [|rid ids IH]; intros acc; simpl; balance.
  destruct (dict_get rid (robot_states a)) as [robot|]; [|apply IH].
  destruct (is_silent t T robot); [|apply IH].
  balance; first [apply balanced_broadcast_update | apply IH].
Qed.

Lemma balanced_publish_offline (t : Q) (l : list string) :
  lock_balanced (publish_offline t l).
Proof.
  induction l as [|rid l IH]; simpl; balance;
    first [apply balanced_zenoh_publish | apply IH].
Qed.

Lemma balanced_sweep (T : Z) : lock_balanced (sweep T).
Proof.
  unfold sweep. balance;
    first [apply balanced_sweep_loop | apply balanced_publish_offline].
Qed.

Lemma balanced_check_offline_robots (n : nat) (T : Z) :
  lock_balanced (check_offline_robots n T).
Proof.
  induction n as [|n IH]; simpl; balance;
    first [apply balanced_sweep | apply IH].
Qed.

Lemma balanced_callback (key : string) (payload : Payload) :
  lock_balanced (callback key payload).
Proof.
  unfold callback. destruct (parse_key key) as [[rid st]|]; [|balance].
  destruct payload; [apply balanced_update_robot_state | balance | balance].
Qed.

Lemma balanced_schedule_robot (task : TaskRequest.t) :
  lock_balanced (schedule_robot task).
Proof.
  unfold schedule_robot. balance.
  destruct (dict_get _ _) as [robot|]; [|balance].
  destruct (py_eq_str _ _); [|balance].
  destruct (py_gt _ _) as [[|]|]; balance.
Qed.

Lemma balanced_create_task (task : TaskRequest.t) :
  lock_balanced (create_task task).
Proof.
  unfold create_task. balance; [apply balanced_schedule_robot|].
  destruct (py_not a); balance. apply balanced_zenoh_publish.
Qed.

Lemma balanced_cancel_task (rid : string) : lock_balanced (cancel_task rid).
Proof.
  unfold cancel_task. balance; [|apply balanced_zenoh_publish].
  destruct (dict_mem rid (robot_states a)); balance.
Qed.

Lemma balanced_get_robot (rid : string) : lock_balanced (get_robot rid).
Proof.
  unfold get_robot. balance. destruct (dict_get _ _); balance.
Qed.

Lemma balanced_get_all_robots : lock_balanced get_all_robots.
Proof. unfold get_all_robots. balance. Qed.

(** X7.  Every entry point of the server that gets through, whether it
    returns or raises (the 404 of a lookup, the 503 or the [TypeError] of a
    dispatch), leaves the lock as it found it: none of them ever returns to
    its caller still holding the lock. *)
Theorem routes_release_the_lock :
  (forall rid state_type data,
     lock_balanced (update_robot_state rid state_type data)) /\
  (forall key payload, lock_balanced (callback key payload)) /\
  (forall n T, lock_balanced (check_offline_robots n T)) /\
  (forall c, lock_balanced (add_connection c)) /\
  (forall c, lock_balanced (remove_connection c)) /\
  lock_balanced get_all_robots /\
  (forall rid, lock_balanced (get_robot rid)) /\
  (forall task, lock_balanced (create_task task)) /\
  (forall rid, lock_balanced (cancel_task rid)).
Proof.
  repeat split; intros.
  - apply balanced_update_robot_state.
  - apply balanced_callback.
  - apply balanced_check_offline_robots.
  - apply balanced_add_connection.
  - apply balanced_remove_connection.
  - apply balanced_get_all_robots.
  - apply balanced_get_robot.
  - apply balanced_create_task.
  - apply balanced_cancel_task.
Qed.

Lemma sweep_held (T : Z) (w : World) :
  lock w = true -> sweep T w = Blocked (set_ticks (S (ticks w)) w).
Proof.
  intros Hl. unfold sweep. unfold bind at 1. unfold time_time at 1.
  unfold bind at 1. now rewrite with_lock_held.
Qed.

(** X8.  One failed send stalls the whole server.  Once an applied update
    has met an observer whose socket is broken, the lock is never released,
    and from then on every entry point that needs it waits forever: both
    lookups, dispatch, cancel, registering or removing an observer, any
    further state update, and every sweep. *)
Theorem one_failed_send_stalls_every_route (w w1 : World)
    (rid state_type : string) (data : json) (c : WebSocket) :
  lock w = false ->
  In c (websocket_connections w) ->
  send_fails w c = true ->
  w1 = after_update rid state_type data w ->
  get_all_robots w1 = Blocked w1 /\
  (forall rid', get_robot rid' w1 = Blocked w1) /\
  (forall task, create_task task w1 = Blocked w1) /\
  (forall rid', cancel_task rid' w1 = Blocked w1) /\
  (forall c', add_connection c' w1 = Blocked w1) /\
  (forall c', remove_connection c' w1 = Blocked w1) /\
  (forall rid' state_type' data',
     update_robot_state rid' state_type' data' w1 = Blocked w1) /\
  (forall n T, exists w2, check_offline_robots (S n) T w1 = Blocked w2).
Proof.
  intros Hl Hin Hf ->.
  destruct (update_parks_on_failing_observer w rid state_type data c Hl Hin Hf)
    as (w1 & Hrun & _ & Hl1).
  unfold after_update. rewrite Hrun. simpl.
  repeat split; intros.
  - unfold get_all_robots. now apply with_lock_held.
  - unfold get_robot. now apply with_lock_held.
  - unfold create_task, schedule_robot. unfold bind at 1.
    now rewrite with_lock_held.
  - unfold cancel_task. unfold bind at 1. now rewrite with_lock_held.
  - unfold add_connection. now apply with_lock_held.
  - unfold remove_connection. now apply with_lock_held.
  - now apply update_robot_state_held.
  - simpl. unfold bind. rewrite sweep_held by assumption. eauto.
Qed.

Lemma one_failed_send_stalls_every_route_witness :
  (lock two_observers = false /\
   In 1%nat (websocket_connections two_observers) /\
   send_fails two_observers 1%nat = true) /\
  get_all_robots (after_update "r1" "pose" JNull two_observers)
  = Blocked (after_update "r1" "pose" JNull two_observers) /\
  forall task,
    create_task task (after_update "r1" "pose" JNull two_observers)
    = Blocked (after_update "r1" "pose" JNull two_observers).
Proof.
  split; [split; [reflexivity | split; [left; reflexivity | reflexivity]]|].
  destruct (one_failed_send_stalls_every_route two_observers
              (after_update "r1" "pose" JNull two_observers)
              "r1" "pose" JNull 1%nat eq_refl (or_introl eq_refl) eq_refl
              eq_refl) as (H1 & _ & H3 & _).
  split; [exact H1 | exact H3].
Defined.

(** ** Observers *)

Lemma update_robot_state_succeeds (w : World) (rid state_type : string)
    (data : json) :
  lock w = false ->
  all_sends_succeed w ->
  update_robot_state rid state_type data w =
  Returned tt
    (set_lock false
       (delivered
          (state_update_msg rid state_type data (clock w (S (ticks w))))
          (websocket_connections w)
          (set_ticks (S (S (ticks w)))
             (set_robot_states
                (upsert (clock w (ticks w)) rid state_type data
                        (robot_states w))
                (set_lock true w))))).
Proof.
  intros Hl Hok. unfold update_robot_state.
  rewrite with_lock_free by assumption.
  unfold bind at 1. unfold modify at 1. unfold bind at 1.
  unfold time_time at 1. unfold bind at 1. unfold modify at 1.
  rewrite broadcast_update_succeeds by exact Hok. reflexivity.
Qed.

(** X9.  When the lock is free and no registered socket is broken, an
    applied update returns with the lock released, leaves the observer list
    and the bus as they were, and hands every registered observer, in
    registration order, one envelope
    [{msg_type: "state_update", robot_id, state_type, data, timestamp}]
    carrying the reported category and payload. *)
Theorem update_reaches_every_observer (w : World) (rid state_type : string)
    (data : json) :
  lock w = false ->
  all_sends_succeed w ->
  exists w',
    update_robot_state rid state_type data w = Returned tt w' /\
    lock w' = false /\
    websocket_connections w' = websocket_connections w /\
    bus w' = bus w /\
    sent w' =
    (sent w ++
     map (fun c =>
            (c, JObj [("msg_type", JStr "state_update");
                      ("robot_id", JStr rid);
                      ("state_type", JStr state_type);
                      ("data", data);
                      ("timestamp", JNum (clock w (S (ticks w))))]))
         (websocket_connections w))%list.
Proof.
  intros Hl Hok. rewrite update_robot_state_succeeds by assumption.
  eexists. split; [reflexivity|]. repeat split; reflexivity.
Qed.

Lemma update_reaches_every_observer_witness :
  (lock silent_r2 = false /\ all_sends_succeed silent_r2) /\
  exists w',
    update_robot_state "r2" "pose" JNull silent_r2 = Returned tt w' /\
    lock w' = false /\
    websocket_connections w' = websocket_connections silent_r2 /\
    bus w' = bus silent_r2 /\
    sent w' =
    (sent silent_r2 ++
     map (fun c =>
            (c, JObj [("msg_type", JStr "state_update");
                      ("robot_id", JStr "r2");
                      ("state_type", JStr "pose");
                      ("data", JNull);
                      ("timestamp",
                       JNum (clock silent_r2 (S (ticks silent_r2))))]))
         (websocket_connections silent_r2))%list.
Proof.
  assert (all_sends_succeed silent_r2) as Hok by (intros c _; reflexivity).
  split; [split; [reflexivity | exact Hok]|].
  exact (update_reaches_every_observer silent_r2 "r2" "pose" JNull
           eq_refl Hok).
Defined.

Lemma list_remove_absent (c : WebSocket) (l : list WebSocket) :
  ~ In c l -> list_remove c l = l.
Proof.
  induction l as [|y l IH]; simpl; [reflexivity|]. intros Hn.
  destruct (Nat.eqb y c) eqn:E.
  - apply Nat.eqb_eq in E. subst y. destruct Hn. now left.
  - rewrite IH; [reflexivity|]. intros Hin. apply Hn. now right.
Qed.

Lemma list_remove_count (c c' : WebSocket) (l : list WebSocket) :
  count_if (fun x => Nat.eqb x c') (list_remove c l) =
  if Nat.eqb c c' then pred (count_if (fun x => Nat.eqb x c') l)
  else count_if (fun x => Nat.eqb x c') l.
Proof.
  induction l as [|y l IH]; simpl.
  - now destruct (Nat.eqb c c').
  - destruct (Nat.eqb y c) eqn:E.
    + apply Nat.eqb_eq in E. subst y.
      destruct (Nat.eqb c c'); simpl; reflexivity.
    + simpl. rewrite IH. destruct (Nat.eqb c c') eqn:E'; [|reflexivity].
      apply Nat.eqb_eq in E'. subst c'. rewrite E. reflexivity.
Qed.

Lemma list_remove_added (c : WebSocket) (l : list WebSocket) :
  ~ In c l -> list_remove c (l ++ [c]) = l.
Proof.
  induction l as [|y l IH]; simpl; intros Hn.
  - now rewrite Nat.eqb_refl.
  - destruct (Nat.eqb y c) eqn:E.
    + apply Nat.eqb_eq in E. subst y. destruct Hn. now left.
    + rewrite IH; [reflexivity|]. intros Hin. apply Hn. now right.
Qed.

(** X10.  With the lock free, [remove_connection] always returns; it drops
    exactly one registration of the given socket if there is one (and is a
    no-op if there is none), keeps every registration of every other
    socket, and touches nothing else. *)
Theorem remove_connection_drops_one (w : World) (c : WebSocket) :
  lock w = false ->
  remove_connection c w =
  Returned tt (set_connections (list_remove c (websocket_connections w)) w) /\
  registrations c
    (set_connections (list_remove c (websocket_connections w)) w)
  = pred (registrations c w) /\
  (forall c', c' <> c ->
     registrations c'
       (set_connections (list_remove c (websocket_connections w)) w)
     = registrations c' w) /\
  (~ In c (websocket_connections w) -> remove_connection c w = Returned tt w).
Proof.
  intros Hl.
  assert (remove_connection c w =
          Returned tt
            (set_connections (list_remove c (websocket_connections w)) w))
    as Hrun.
  { unfold remove_connection. rewrite with_lock_free by assumption.
    unfold modify. destruct w. simpl in *. now subst. }
  split; [exact Hrun|]. split; [|split].
  - unfold registrations. simpl. rewrite list_remove_count.
    now rewrite Nat.eqb_refl.
  - intros c' Hne. unfold registrations. simpl. rewrite list_remove_count.
    destruct (Nat.eqb c c') eqn:E; [|reflexivity].
    apply Nat.eqb_eq in E. congruence.
  - intros Hn. rewrite Hrun, list_remove_absent by assumption.
    now destruct w.
Qed.

Lemma remove_connection_drops_one_witness :
  lock three_observers = false /\
  remove_connection 2 three_observers =
  Returned tt
    (set_connections
       (list_remove 2 (websocket_connections three_observers))
       three_observers) /\
  registrations 2
    (set_connections
       (list_remove 2 (websocket_connections three_observers))
       three_observers)
  = pred (registrations 2 three_observers).
Proof.
  split; [reflexivity|].
  destruct (remove_connection_drops_one three_observers 2 eq_refl)
    as (H1 & H2 & _).
  split; [exact H1 | exact H2].
Defined.

(** X11.  Registering a socket that was not registered and then removing
    it brings the server back to exactly the state it was in. *)
Theorem add_then_remove_restores (w : World) (c : WebSocket) :
  lock w = false ->
  ~ In c (websocket_connections w) ->
  (add_connection c ;; remove_connection c) w = Returned tt w.
Proof.
  intros Hl Hn. unfold bind, add_connection, remove_connection.
  rewrite with_lock_free by assumption. unfold modify.
  rewrite with_lock_free by reflexivity. simpl.
  rewrite list_remove_added by assumption.
  destruct w. simpl in *. now subst.
Qed.

Lemma add_then_remove_restores_witness :
  (lock three_observers = false /\
   ~ In 9%nat (websocket_connections three_observers)) /\
  (add_connection 9 ;; remove_connection 9) three_observers
  = Returned tt three_observers.
Proof.
  assert (~ In 9%nat (websocket_connections three_observers)) as Hn.
  { simpl. intros [H|[H|[H|[]]]]; discriminate. }
  split; [split; [reflexivity | exact Hn]|].
  exact (add_then_remove_restores three_observers 9 eq_refl Hn).
Defined.

(** ** The bus *)

#[local] Instance bus_grows_preorder : PreOrder bus_grows.
Proof.
  split.
  - intros w. split; [reflexivity|]. exists []. now rewrite app_nil_r.
  - intros w1 w2 w3 (S1 & l1 & B1 & N1) (S2 & l2 & B2 & N2).
    split; [congruence|]. exists (l1 ++ l2)%list.
    split; [now rewrite B2, B1, app_assoc|].
    intros Hs. rewrite N1, N2 by congruence. reflexivity.
Qed.

Lemma same_bus_grows (w w' : World) : same_bus w w' -> bus_grows w w'.
Proof.
  intros [Hb Hs]. split; [exact Hs|]. exists []. now rewrite Hb, app_nil_r.
Qed.

Lemma zenoh_publish_grows (key : string) (data : json) (p : Priority) :
  preserves bus_grows (zenoh_publish key data p).
Proof.
  intros w. unfold zenoh_publish. destruct (zenoh_session w) eqn:Hs; simpl.
  - split; [reflexivity|]. eexists. split; [reflexivity|]. congruence.
  - reflexivity.
Qed.

Lemma publish_offline_grows (t : Q) (l : list string) :
  preserves bus_grows (publish_offline t l).
Proof.
  induction l as [|rid l IH]; simpl.
  - frame_step.
  - frame_step; [apply zenoh_publish_grows | apply IH].
Qed.

Lemma time_time_bus : preserves same_bus time_time.
Proof. intros w. now split. Qed.

Lemma update_robot_state_bus (rid state_type : string) (data : json) :
  preserves same_bus (update_robot_state rid state_type data).
Proof.
  unfold update_robot_state. frame_step.
  - intros b w. now split.
  - frame_step; [frame_step; intros w; now split|].
    frame_step; [apply time_time_bus|].
    frame_step; [frame_step; intros w; now split|].
    eapply preserves_weaken;
      [apply same_registry_bus | apply broadcast_update_frame].
Qed.

Lemma sweep_grows (T : Z) : preserves bus_grows (sweep T).
Proof.
  unfold sweep. frame_step.
  { eapply preserves_weaken; [apply same_bus_grows | apply time_time_bus]. }
  frame_step; [|apply publish_offline_grows].
  eapply preserves_weaken;
    [apply same_bus_grows | apply locked_sweep_loop_bus].
Qed.

Lemma step_grows (i : Input) : preserves bus_grows (step i).
Proof.
  destruct i; simpl; [|apply sweep_grows].
  eapply preserves_weaken;
    [apply same_bus_grows | apply update_robot_state_bus].
Qed.

Lemma schedule_robot_bus (task : TaskRequest.t) :
  preserves same_bus (schedule_robot task).
Proof.
  unfold schedule_robot. frame_step.
  - intros b w. now split.
  - frame_step; [frame_step|].
    destruct (dict_get _ _) as [robot|]; [|frame_step].
    destruct (py_eq_str _ _); [|frame_step].
    destruct (py_gt _ _) as [[|]|]; frame_step.
Qed.

Lemma create_task_grows (task : TaskRequest.t) :
  preserves bus_grows (create_task task).
Proof.
  unfold create_task. frame_step.
  { eapply preserves_weaken;
      [apply same_bus_grows | apply schedule_robot_bus]. }
  destruct (py_not a); [frame_step|].
  frame_step.
  { eapply preserves_weaken; [apply same_bus_grows | apply time_time_bus]. }
  frame_step.
  { eapply preserves_weaken; [apply same_bus_grows | apply time_time_bus]. }
  frame_step; [apply zenoh_publish_grows | frame_step].
Qed.

Lemma cancel_task_grows (rid : string) : preserves bus_grows (cancel_task rid).
Proof.
  unfold cancel_task. frame_step.
  { frame_step.
    - intros b w. apply same_bus_grows. now split.
    - frame_step; [frame_step|].
      destruct (dict_mem rid (robot_states a)); frame_step. }
  frame_step.
  { eapply preserves_weaken; [apply same_bus_grows | apply time_time_bus]. }
  frame_step; [apply zenoh_publish_grows | frame_step].
Qed.

(** X12.  The bus is append-only for the server: a run of updates and
    sweeps, a dispatch and a cancel each leave everything published before
    in place and at most add messages behind it; state updates add none;
    and while the session is [None] nothing is added at all.  The session
    itself is never changed by any of them. *)
Theorem bus_only_grows (w : World) :
  (forall inputs, bus_grows w (world_of (run inputs w))) /\
  (forall rid state_type data,
     bus (world_of (update_robot_state rid state_type data w)) = bus w) /\
  (forall task, bus_grows w (world_of (create_task task w))) /\
  (forall rid, bus_grows w (world_of (cancel_task rid w))).
Proof.
  split; [|split; [|split]].
  - intros inputs. apply run_preserves; [typeclasses eauto | apply step_grows].
  - intros rid state_type data. apply update_robot_state_bus.
  - intros task. apply create_task_grows.
  - intros rid. apply cancel_task_grows.
Qed.

(** ** Dispatch and cancel, in more detail *)

Lemma emit_task_run (w : World) (task : TaskRequest.t) (rid : string) :
  emit_task task rid w =
  Returned
    (TaskResponse.mk (mint_task_id (clock w (ticks w))) rid "scheduled")
    (if zenoh_session w then
       set_bus
         (bus w ++
          [("fms/robot/" +:+ rid +:+ "/cmd/task",
            JObj [("task_id", JStr (mint_task_id (clock w (ticks w))));
                  ("target_position", TaskRequest.target_position task);
                  ("priority", JStr (TaskRequest.priority task));
                  ("timestamp", JNum (clock w (S (ticks w))))],
            if String.eqb (TaskRequest.priority task) "high"
            then REAL_TIME else NORMAL)])
         (set_ticks (S (S (ticks w))) w)
     else set_ticks (S (S (ticks w))) w).
Proof.
  unfold emit_task, bind, time_time, zenoh_publish, ret. simpl.
  destruct (zenoh_session w); reflexivity.
Qed.

Lemma create_task_accepted (w : World) (task : TaskRequest.t) :
  lock w = false ->
  TaskRequest.robot_id task <> "" ->
  available (TaskRequest.robot_id task) (robot_states w) ->
  create_task task w = emit_task task (TaskRequest.robot_id task) w.
Proof.
  intros Hl Hne Ha. rewrite create_task_free by assumption.
  apply verdict_available in Ha. rewrite Ha. simpl.
  destruct (String.eqb (TaskRequest.robot_id task) "") eqn:E; [|reflexivity].
  apply String.eqb_eq in E. contradiction.
Qed.

(** X13.  An accepted dispatch answers [{task_id, robot_id, status:
    "scheduled"}] for the requested robot and, with the session open, puts
    exactly one message on the bus: on [fms/robot/<id>/cmd/task], carrying
    the same task id, the requested target and priority and a timestamp, at
    priority [REAL_TIME] when the request says "high" and [NORMAL]
    otherwise.  The registry and the observers are not touched. *)
Theorem accepted_dispatch_publishes_one_command (w : World)
    (task : TaskRequest.t) :
  lock w = false ->
  zenoh_session w = true ->
  TaskRequest.robot_id task <> "" ->
  available (TaskRequest.robot_id task) (robot_states w) ->
  create_task task w =
  Returned
    (TaskResponse.mk (mint_task_id (clock w (ticks w)))
                     (TaskRequest.robot_id task) "scheduled")
    (set_bus
       (bus w ++
        [("fms/robot/" +:+ TaskRequest.robot_id task +:+ "/cmd/task",
          JObj [("task_id", JStr (mint_task_id (clock w (ticks w))));
                ("target_position", TaskRequest.target_position task);
                ("priority", JStr (TaskRequest.priority task));
                ("timestamp", JNum (clock w (S (ticks w))))],
          if String.eqb (TaskRequest.priority task) "high"
          then REAL_TIME else NORMAL)])
       (set_ticks (S (S (ticks w))) w)).
Proof.
  intros Hl Hs Hne Ha. rewrite create_task_accepted by assumption.
  rewrite emit_task_run, Hs. reflexivity.
Qed.

Lemma busy_second_available : available "r1" (robot_states busy_second).
Proof.
  eexists _, 50%Q. split; [reflexivity|].
  split; [reflexivity|]. split; reflexivity.
Defined.

Lemma accepted_dispatch_publishes_one_command_witness :
  (lock busy_second = false /\ zenoh_session busy_second = true /\
   "r1" <> "" /\ available "r1" (robot_states busy_second)) /\
  create_task (TaskRequest.mk "r1" JNull "high") busy_second =
  Returned
    (TaskResponse.mk (mint_task_id (clock busy_second 0)) "r1" "scheduled")
    (set_bus
       (bus busy_second ++
        [("fms/robot/r1/cmd/task",
          JObj [("task_id", JStr (mint_task_id (clock busy_second 0)));
                ("target_position", JNull);
                ("priority", JStr "high");
                ("timestamp", JNum (clock busy_second 1))],
          REAL_TIME)])
       (set_ticks 2 busy_second)).
Proof.
  assert ("r1" <> "") as Hne by discriminate.
  split; [repeat split; try reflexivity;
          [exact Hne | exact busy_second_available]|].
  exact (accepted_dispatch_publishes_one_command busy_second
           (TaskRequest.mk "r1" JNull "high") eq_refl eq_refl Hne
           busy_second_available).
Defined.

(** X14.  While the session is [None] the server still answers success:
    [cancel_task] for a known robot returns its acknowledgement and an
    available robot's dispatch returns "scheduled", although nothing has
    reached the bus. *)
Theorem no_session_still_answers_success (w : World) (task : TaskRequest.t)
    (robot : RobotState) :
  lock w = false ->
  zenoh_session w = false ->
  dict_get (TaskRequest.robot_id task) (robot_states w) = Some robot ->
  (exists w',
     cancel_task (TaskRequest.robot_id task) w =
     Returned (JObj [("status", JStr "cancel command sent")]) w' /\
     bus w' = bus w) /\
  (TaskRequest.robot_id task <> "" ->
   available (TaskRequest.robot_id task) (robot_states w) ->
   exists resp w',
     create_task task w = Returned resp w' /\
     TaskResponse.status resp = "scheduled" /\ bus w' = bus w).
Proof.
  intros Hl Hs Hg. split.
  - unfold cancel_task, bind. rewrite with_lock_free by assumption.
    unfold get_world, dict_mem. simpl. rewrite Hg. simpl.
    unfold zenoh_publish, time_time, ret. simpl. rewrite Hs.
    eexists. split; reflexivity.
  - intros Hne Ha. rewrite create_task_accepted by assumption.
    rewrite emit_task_run, Hs. eexists _, _.
    split; [reflexivity|]. split; reflexivity.
Qed.

Lemma no_session_still_answers_success_witness :
  (lock no_session = false /\ zenoh_session no_session = false /\
   dict_get "r1" (robot_states no_session)
   = Some {| robot_id := "r1"; pose := JObj []; battery := JNum 50;
             status := JStr "ONLINE"; last_seen := 100;
             custom_state := [] |}) /\
  exists w',
    cancel_task "r1" no_session =
    Returned (JObj [("status", JStr "cancel command sent")]) w' /\
    bus w' = bus no_session.
Proof.
  split; [repeat split; reflexivity|].
  destruct (no_session_still_answers_success no_session
              (TaskRequest.mk "r1" JNull "normal") _ eq_refl eq_refl eq_refl)
    as [H _].
  exact H.
Defined.

Lemma touched_battery (t : Q) (rid : string) (data : json)
    (rs : dict RobotState) :
  battery (touched t rid "battery" data rs) = data /\
  status (touched t rid "battery" data rs) = JStr "ONLINE".
Proof. split; reflexivity. Qed.

Lemma after_update_healthy (w : World) (rid state_type : string)
    (data : json) :
  lock w = false ->
  all_sends_succeed w ->
  lock (after_update rid state_type data w) = false /\
  dict_get rid (robot_states (after_update rid state_type data w)) =
  Some (touched (clock w (ticks w)) rid state_type data (robot_states w)).
Proof.
  intros Hl Hok. unfold after_update.
  rewrite update_robot_state_succeeds by assumption. simpl.
  split; [reflexivity | apply upsert_lookup].
Qed.

(** X15.  Right after a battery report has been applied (lock free,
    observers healthy), what a dispatch to that robot does depends on the
    reported value alone: a number above 20 is accepted, a number up to 20
    is rejected with 503, and a payload that is not a number, such as the
    object the robot agent of this repository reports, makes the dispatch
    raise [TypeError]. *)
Theorem dispatch_after_battery_report (w : World) (task : TaskRequest.t)
    (data : json) :
  lock w = false ->
  all_sends_succeed w ->
  TaskRequest.robot_id task <> "" ->
  (forall q, num_value data = Some q -> (20 < q)%Q ->
     exists resp w',
       create_task task
         (after_update (TaskRequest.robot_id task) "battery" data w)
       = Returned resp w') /\
  (forall q, num_value data = Some q -> (q <= 20)%Q ->
     create_task task
       (after_update (TaskRequest.robot_id task) "battery" data w)
     = Raised (unavailable (TaskRequest.robot_id task))
         (after_update (TaskRequest.robot_id task) "battery" data w)) /\
  (num_value data = None ->
     create_task task
       (after_update (TaskRequest.robot_id task) "battery" data w)
     = Raised TypeError
         (after_update (TaskRequest.robot_id task) "battery" data w)).
Proof.
  intros Hl Hok Hne.
  destruct (after_update_healthy w (TaskRequest.robot_id task) "battery" data
              Hl Hok) as [Hl1 Hg].
  set (w1 := after_update (TaskRequest.robot_id task) "battery" data w) in *.
  assert (verdict (TaskRequest.robot_id task) (robot_states w1) =
          match num_value data with
          | Some q => if Qgtb q 20 then Some (Some (TaskRequest.robot_id task))
                      else Some None
          | None => None
          end) as Hv.
  { unfold verdict. rewrite Hg.
    destruct (touched_battery (clock w (ticks w)) (TaskRequest.robot_id task)
                data (robot_states w)) as [-> ->].
    simpl. unfold py_gt. destruct (num_value data); [|reflexivity].
    now destruct (Qgtb q 20). }
  rewrite create_task_free by assumption. rewrite Hv.
  split; [|split].
  - intros q -> Hq. apply Qgtb_lt in Hq. rewrite Hq. simpl.
    destruct (String.eqb (TaskRequest.robot_id task) "") eqn:E.
    { apply String.eqb_eq in E. contradiction. }
    rewrite emit_task_run. eauto.
  - intros q -> Hq. apply Qgtb_le in Hq. now rewrite Hq.
  - now intros ->.
Qed.

Lemma dispatch_after_battery_report_witness :
  (lock boot = false /\ all_sends_succeed boot /\ "r1" <> "") /\
  create_task (TaskRequest.mk "r1" JNull "normal")
    (after_update "r1" "battery"
       (JObj [("voltage", JNum 12); ("percentage", JNum 0.95)]) boot)
  = Raised TypeError
      (after_update "r1" "battery"
         (JObj [("voltage", JNum 12); ("percentage", JNum 0.95)]) boot).
Proof.
  assert (all_sends_succeed boot) as Hok by (intros c []).
  assert ("r1" <> "") as Hne by discriminate.
  split; [split; [reflexivity | split; [exact Hok | exact Hne]]|].
  destruct (dispatch_after_battery_report boot
              (TaskRequest.mk "r1" JNull "normal")
              (JObj [("voltage", JNum 12); ("percentage", JNum 0.95)])
              eq_refl Hok Hne) as (_ & _ & H).
  exact (H eq_refl).
Defined.

(** X16.  Right after a status report has been applied (lock free,
    observers healthy), a dispatch to that robot is rejected with 503
    unless the reported payload is the very string "ONLINE": any task phase
    the robot reports about itself makes it unavailable until its next pose,
    battery or custom report. *)
Theorem dispatch_after_status_report (w : World) (task : TaskRequest.t)
    (data : json) :
  lock w = false ->
  all_sends_succeed w ->
  data <> JStr "ONLINE" ->
  create_task task
    (after_update (TaskRequest.robot_id task) "status" data w)
  = Raised (unavailable (TaskRequest.robot_id task))
      (after_update (TaskRequest.robot_id task) "status" data w).
Proof.
  intros Hl Hok Hd.
  destruct (after_update_healthy w (TaskRequest.robot_id task) "status" data
              Hl Hok) as [Hl1 Hg].
  rewrite create_task_free by assumption.
  unfold verdict. rewrite Hg, touched_status. simpl.
  destruct (py_eq_str data "ONLINE") eqn:E; [|reflexivity].
  apply py_eq_str_true in E. contradiction.
Qed.

Lemma dispatch_after_status_report_witness :
  (lock busy_second = false /\ all_sends_succeed busy_second /\
   agent_status "RUNNING" <> JStr "ONLINE") /\
  create_task (TaskRequest.mk "r1" JNull "normal")
    (after_update "r1" "status" (agent_status "RUNNING") busy_second)
  = Raised (unavailable "r1")
      (after_update "r1" "status" (agent_status "RUNNING") busy_second).
Proof.
  assert (all_sends_succeed busy_second) as Hok by (intros c []).
  assert (agent_status "RUNNING" <> JStr "ONLINE") as Hd by discriminate.
  split; [split; [reflexivity | split; [exact Hok | exact Hd]]|].
  exact (dispatch_after_status_report busy_second
           (TaskRequest.mk "r1" JNull "normal") (agent_status "RUNNING")
           eq_refl Hok Hd).
Defined.

(** X17.  A healthy sweep spares a robot that is not silent: if the age
    of its record as the sweep computes it, a float subtraction, is at
    most the threshold, or the exact age is and the threshold is at most
    [2^53] in magnitude, the sweep returns with the record exactly as it
    was, and neither an offline event nor an offline envelope for that
    robot is sent. *)
Theorem sweep_spares_fresh_robot (w : World) (rid : string) (T : Z)
    (robot : RobotState) :
  lock w = false ->
  zenoh_session w = true ->
  all_sends_succeed w ->
  dict_get rid (robot_states w) = Some robot ->
  (float_sub (clock w (ticks w)) (last_seen robot) <= inject_Z T)%Q \/
  ((Z.abs T <= 2 ^ 53)%Z /\
   (clock w (ticks w) - last_seen robot <= inject_Z T)%Q) ->
  exists w',
    sweep T w = Returned tt w' /\
    dict_get rid (robot_states w') = Some robot /\
    offline_events rid w' = offline_events rid w /\
    forall c, offline_envelopes rid c w' = offline_envelopes rid c w.
Proof.
  intros Hl Hs Hok Hg Hage.
  destruct (sweep_once T rid w Hl Hs Hok)
    as (w' & Hrun & _ & _ & _ & _ & Hg' & He & Hv).
  assert (float_sub (clock w (ticks w)) (last_seen robot) <= inject_Z T)%Q
    as Hfl.
  { destruct Hage as [H | [HT H]]; [exact H|].
    now apply float_sub_le_int. }
  assert (silent_at (clock w (ticks w)) T rid w = false) as Hno.
  { unfold silent_at, is_silent. rewrite Hg.
    apply Qgtb_le in Hfl. now rewrite Hfl. }
  rewrite Hno in Hg', He, Hv.
  exists w'. split; [exact Hrun|]. split; [congruence|].
  split; [lia|]. intros c. rewrite Hv. lia.
Qed.

Lemma sweep_spares_fresh_robot_witness :
  (lock silent_r2 = false /\ zenoh_session silent_r2 = true /\
   all_sends_succeed silent_r2 /\
   (Z.abs 10 <= 2 ^ 53)%Z /\
   (clock silent_r2 (ticks silent_r2) - 0 <= inject_Z 10)%Q) /\
  exists w',
    sweep 10 silent_r2 = Returned tt w' /\
    option_map status (dict_get "r2" (robot_states w'))
    = Some (JStr "ONLINE") /\
    offline_events "r2" w' = 0%nat.
Proof.
  assert (all_sends_succeed silent_r2) as Hok by (intros c _; reflexivity).
  assert (clock silent_r2 (ticks silent_r2) - 0 <= inject_Z 10)%Q as Hage
    by (vm_compute; discriminate).
  assert (Z.abs 10 <= 2 ^ 53)%Z as HT by (vm_compute; discriminate).
  split;
    [split; [reflexivity | split; [reflexivity | repeat split; assumption]]|].
  destruct (sweep_spares_fresh_robot silent_r2 "r2" 10
              {| robot_id := "r2"; pose := JObj []; battery := JNum 80;
                 status := JStr "ONLINE"; last_seen := 0;
                 custom_state := [] |} eq_refl eq_refl Hok eq_refl
              (or_intror (conj HT Hage)))
    as (w' & Hrun & Hg & He & _).
  exists w'. split; [exact Hrun|]. split; [now rewrite Hg | exact He].
Defined.

(** ** The routes that only read *)

#[local] Instance serving_kept_preorder : PreOrder serving_kept.
Proof.
  split.
  - intros w. unfold serving_kept. auto.
  - intros w1 w2 w3 (a1 & b1 & c1) (a2 & b2 & c2).
    unfold serving_kept. repeat split; congruence.
Qed.

Ltac kept := intros ?; unfold serving_kept; simpl; auto.

Lemma schedule_robot_kept (task : TaskRequest.t) :
  preserves serving_kept (schedule_robot task).
Proof.
  unfold schedule_robot. frame_step; [kept|].
  frame_step; [frame_step|].
  destruct (dict_get _ _) as [robot|]; [|frame_step].
  destruct (py_eq_str _ _); [|frame_step].
  destruct (py_gt _ _) as [[|]|]; frame_step.
Qed.

Lemma zenoh_publish_serving (key : string) (data : json) (p : Priority) :
  preserves serving_kept (zenoh_publish key data p).
Proof.
  intros w. unfold zenoh_publish. destruct (zenoh_session w); simpl;
    unfold serving_kept; simpl; auto.
Qed.

Lemma time_time_serving : preserves serving_kept time_time.
Proof. kept. Qed.

Lemma create_task_kept (task : TaskRequest.t) :
  preserves serving_kept (create_task task).
Proof.
  unfold create_task. frame_step; [apply schedule_robot_kept|].
  destruct (py_not a); [frame_step|].
  frame_step; [apply time_time_serving|].
  frame_step; [apply time_time_serving|].
  frame_step; [apply zenoh_publish_serving | frame_step].
Qed.

Lemma cancel_task_kept (rid : string) :
  preserves serving_kept (cancel_task rid).
Proof.
  unfold cancel_task. frame_step.
  { frame_step; [intros b; kept|].
    frame_step; [frame_step|].
    destruct (dict_mem rid (robot_states a)); frame_step. }
  frame_step; [apply time_time_serving|].
  frame_step; [apply zenoh_publish_serving | frame_step].
Qed.

Lemma get_robot_kept (rid : string) : preserves serving_kept (get_robot rid).
Proof.
  unfold get_robot. frame_step; [intros b; kept|].
  frame_step; [frame_step|].
  destruct (dict_get _ _); frame_step.
Qed.

Lemma get_all_robots_kept : preserves serving_kept get_all_robots.
Proof.
  unfold get_all_robots. frame_step; [intros b; kept|].
  frame_step; [frame_step | frame_step].
Qed.

(** X18.  The HTTP routes never write to the registry or to the
    observers: after a lookup, a listing, a dispatch or a cancel, whatever
    its outcome, every record, the observer list and every observer's inbox
    are exactly as before.  In particular a dispatch does not mark the
    robot busy and a cancel does not change its status. *)
Theorem http_routes_do_not_write (w : World) :
  serving_kept w (world_of (get_all_robots w)) /\
  (forall rid, serving_kept w (world_of (get_robot rid w))) /\
  (forall task, serving_kept w (world_of (create_task task w))) /\
  (forall rid, serving_kept w (world_of (cancel_task rid w))).
Proof.
  split; [apply get_all_robots_kept|].
  split; [intros; apply get_robot_kept|].
  split; intros; [apply create_task_kept | apply cancel_task_kept].
Qed.

(** ** Where a report goes *)

(** X19.  A report in a category other than "pose", "battery" and
    "status" is kept in the robot's custom state under the name of its
    category: it can be read back there, it replaces an earlier value of
    the same category, every other custom category keeps its value, and
    pose and battery are not touched. *)
Theorem custom_report_is_kept_by_category (w : World)
    (rid state_type : string) (data : json) :
  lock w = false ->
  state_type <> "pose" ->
  state_type <> "battery" ->
  state_type <> "status" ->
  exists robot,
    dict_get rid (robot_states (after_update rid state_type data w))
    = Some robot /\
    dict_get state_type (custom_state robot) = Some data /\
    (forall other,
       state_type <> other ->
       dict_get other (custom_state robot) =
       dict_get other
         (custom_state
            (default (new_RobotState rid) (dict_get rid (robot_states w))))) /\
    pose robot =
      pose (default (new_RobotState rid) (dict_get rid (robot_states w))) /\
    battery robot =
      battery (default (new_RobotState rid) (dict_get rid (robot_states w))).
Proof.
  intros Hl H1 H2 H3. unfold after_update.
  rewrite update_robot_state_registry by assumption.
  eexists. split; [apply upsert_lookup|].
  unfold touched, apply_field.
  apply String.eqb_neq in H1, H2, H3. rewrite H1, H2, H3. simpl.
  split; [apply dict_get_set_eq|].
  split; [|split; reflexivity].
  intros other Hne. now apply dict_get_set_ne.
Qed.

Lemma custom_report_is_kept_by_category_witness :
  (lock boot = false /\ "sensors/lidar" <> "pose" /\
   "sensors/lidar" <> "battery" /\ "sensors/lidar" <> "status") /\
  exists robot,
    dict_get "r1"
      (robot_states (after_update "r1" "sensors/lidar" (JNum 3) boot))
    = Some robot /\
    dict_get "sensors/lidar" (custom_state robot) = Some (JNum 3).
Proof.
  assert ("sensors/lidar" <> "pose") as H1 by discriminate.
  assert ("sensors/lidar" <> "battery") as H2 by discriminate.
  assert ("sensors/lidar" <> "status") as H3 by discriminate.
  split; [repeat split; try reflexivity; assumption|].
  destruct (custom_report_is_kept_by_category boot "r1" "sensors/lidar"
              (JNum 3) eq_refl H1 H2 H3) as (robot & Hg & Hc & _).
  exists robot. split; [exact Hg | exact Hc].
Defined.

(** X20.  An update for one robot leaves the record of every other robot
    exactly as it was, whether or not the update gets through. *)
Theorem update_touches_one_robot (w : World) (rid other state_type : string)
    (data : json) :
  rid <> other ->
  dict_get other (robot_states (after_update rid state_type data w))
  = dict_get other (robot_states w).
Proof.
  intros Hne. unfold after_update. destruct (lock w) eqn:Hl.
  - now rewrite update_robot_state_held.
  - rewrite update_robot_state_registry by assumption.
    now apply upsert_other.
Qed.

Lemma update_touches_one_robot_witness :
  "r2" <> "r1" /\
  dict_get "r1"
    (robot_states (after_update "r2" "status" (JStr "ERROR") busy_second))
  = dict_get "r1" (robot_states busy_second).
Proof.
  assert ("r2" <> "r1") as Hne by discriminate.
  split; [exact Hne|].
  exact (update_touches_one_robot busy_second "r2" "r1" "status"
           (JStr "ERROR") Hne).
Defined.

(** ** The websocket route *)

Lemma add_connection_free (w : World) (c : WebSocket) :
  lock w = false ->
  add_connection c w =
  Returned tt (set_connections (websocket_connections w ++ [c]) w).
Proof.
  intros Hl. unfold add_connection. rewrite with_lock_free by assumption.
  unfold modify. destruct w. simpl in *. now subst.
Qed.

Lemma heartbeats_succeed (n : nat) (c : WebSocket) (w : World) :
  send_fails w c = false ->
  heartbeats n c w =
  Returned tt
    (set_sent (sent w ++ heartbeat_log (clock w) (ticks w) n c)
              (set_ticks (ticks w + n) w)).
Proof.
  revert w. induction n as [|n IH]; intros w Hf; simpl.
  - unfold ret. rewrite app_nil_r, Nat.add_0_r. now destruct w.
  - unfold bind, time_time, send_text. simpl. rewrite Hf.
    rewrite IH by exact Hf. simpl.
    rewrite <- app_assoc, Nat.add_succ_r. reflexivity.
Qed.

(** X21.  A client whose socket is broken is deregistered by its own
    handler at the first heartbeat: with the lock free and the socket not
    registered before, [websocket_endpoint] returns with the observer list,
    the inboxes, the registry and the bus exactly as they were before the
    client connected (only the clock has been read once).  Outside the lock
    the removal that parks the fan-out does work. *)
Theorem dead_client_is_deregistered_at_heartbeat (w : World) (n : nat)
    (c : WebSocket) :
  lock w = false ->
  send_fails w c = true ->
  ~ In c (websocket_connections w) ->
  websocket_endpoint (S n) c w = Returned tt (set_ticks (S (ticks w)) w).
Proof.
  intros Hl Hf Hn. unfold websocket_endpoint. unfold bind at 1.
  rewrite add_connection_free by assumption.
  unfold try_except. simpl heartbeats. unfold bind at 1.
  unfold time_time at 1. unfold bind at 1. unfold send_text at 1.
  simpl send_fails. rewrite Hf.
  unfold remove_connection. rewrite with_lock_free by exact Hl.
  unfold modify. simpl. rewrite list_remove_added by assumption.
  destruct w. simpl in *. now subst.
Qed.

Lemma dead_client_is_deregistered_at_heartbeat_witness :
  (lock no_observer_yet = false /\ send_fails no_observer_yet 1 = true /\
   ~ In 1%nat (websocket_connections no_observer_yet)) /\
  websocket_endpoint 3 1 no_observer_yet
  = Returned tt (set_ticks 1 no_observer_yet).
Proof.
  assert (~ In 1%nat (websocket_connections no_observer_yet))
    as Hn by (intros []).
  split; [split; [reflexivity | split; [reflexivity | exact Hn]]|].
  exact (dead_client_is_deregistered_at_heartbeat no_observer_yet 2 1
           eq_refl eq_refl Hn).
Defined.

(** X22.  A client whose socket works is registered behind the observers
    already there and, while its handler runs alone, receives one heartbeat
    envelope [{msg_type: "heartbeat", timestamp}] per round, each stamped
    with the next reading of the clock; it stays registered. *)
Theorem live_client_gets_heartbeats (w : World) (n : nat) (c : WebSocket) :
  lock w = false ->
  send_fails w c = false ->
  exists w',
    websocket_endpoint n c w = Returned tt w' /\
    websocket_connections w' = (websocket_connections w ++ [c])%list /\
    sent w' = (sent w ++ heartbeat_log (clock w) (ticks w) n c)%list /\
    lock w' = false /\ robot_states w' = robot_states w /\ bus w' = bus w.
Proof.
  intros Hl Hf. unfold websocket_endpoint. unfold bind at 1.
  rewrite add_connection_free by assumption.
  unfold try_except. rewrite heartbeats_succeed by exact Hf.
  eexists. split; [reflexivity|]. simpl. repeat split; auto.
Qed.

Lemma live_client_gets_heartbeats_witness :
  (lock silent_r2 = false /\ send_fails silent_r2 8 = false) /\
  exists w',
    websocket_endpoint 2 8 silent_r2 = Returned tt w' /\
    websocket_connections w' = [7; 8]%nat /\
    sent w' = [(8%nat, heartbeat_msg 6); (8%nat, heartbeat_msg (6 + 1))].
Proof.
  split; [split; reflexivity|].
  destruct (live_client_gets_heartbeats silent_r2 2 8 eq_refl eq_refl)
    as (w' & Hrun & Hc & Hs & _).
  exists w'. split; [exact Hrun|]. split; [exact Hc | exact Hs].
Defined.

(** ** The robot agent's side of the bus *)

Lemma str_split_concat (sep : Ascii.ascii) (a b : string) :
  str_split sep (a +:+ String sep b) =
  (str_split sep a ++ str_split sep b)%list.
Proof.
  induction a as [|c a IH].
  - rewrite append_nil. simpl. now rewrite Ascii.eqb_refl.
  - rewrite append_cons. simpl. rewrite IH.
    destruct (Ascii.eqb c sep); [reflexivity|].
    pose proof (str_split_nonempty sep a) as Hne.
    destruct (str_split sep a) as [|p ps]; [contradiction | reflexivity].
Qed.

Lemma last_of_app {A : Type} (l1 l2 : list A) (d : A) :
  l2 <> [] -> List.last (l1 ++ l2) d = List.last l2 d.
Proof.
  intros Hne. induction l1 as [|x l1 IH]; [reflexivity|].
  simpl. rewrite IH. destruct (l1 ++ l2)%list eqn:E; [|reflexivity].
  apply app_eq_nil in E as [_ E]. contradiction.
Qed.

Lemma str_split_whole (sep : Ascii.ascii) (s : string) :
  has_sep sep s = false -> str_split sep s = [s].
Proof.
  induction s as [|c s IH]; [reflexivity|]. simpl. intros H.
  apply orb_false_iff in H as [Hc Hs]. now rewrite Hc, IH.
Qed.

Lemma agent_cmd_type_last (prefix name : string) :
  has_sep slash name = false ->
  agent_cmd_type (prefix +:+ String slash name) = name.
Proof.
  intros Hn. unfold agent_cmd_type. rewrite str_split_concat.
  rewrite last_of_app by apply str_split_nonempty.
  now rewrite str_split_whole.
Qed.

Lemma append_assoc (a b c : string) : (a +:+ b) +:+ c = a +:+ (b +:+ c).
Proof.
  induction a as [|x a IH]; [reflexivity|].
  now rewrite !append_cons, IH.
Qed.

(** X23.  Whatever the robot id is, the agent's [cmd_callback] sends the
    key on which the server publishes a dispatch,
    [fms/robot/<id>/cmd/task], to [execute_task], and the key on which the
    server publishes a cancel, [fms/robot/<id>/cmd/cancel], to
    [cancel_task]; neither ends in the "unknown command" branch. *)
Theorem agent_routes_server_commands (rid : string) :
  agent_route ("fms/robot/" +:+ rid +:+ "/cmd/task") = ExecuteTask /\
  agent_route ("fms/robot/" +:+ rid +:+ "/cmd/cancel") = CancelTask.
Proof.
  unfold agent_route. split.
  - change ("fms/robot/" +:+ rid +:+ "/cmd/task")
      with ("fms/robot/" +:+ (rid +:+ ("/cmd" +:+ String slash "task"))).
    rewrite <- !append_assoc.
    now rewrite agent_cmd_type_last.
  - change ("fms/robot/" +:+ rid +:+ "/cmd/cancel")
      with ("fms/robot/" +:+ (rid +:+ ("/cmd" +:+ String slash "cancel"))).
    rewrite <- !append_assoc.
    now rewrite agent_cmd_type_last.
Qed.

(** X24.  The heartbeat the agent publishes on
    [fms/robot/<id>/heartbeat] is not a state report for the server: for an
    id free of slashes the server's [callback] drops it without touching
    the state, so a heartbeat never refreshes [last_seen] and never brings
    a robot back "ONLINE". *)
Theorem agent_heartbeat_is_ignored (rid : string) (payload : Payload)
    (w : World) :
  has_sep slash rid = false ->
  parse_key (agent_heartbeat_key rid) = None /\
  callback (agent_heartbeat_key rid) payload w = Returned tt w.
Proof.
  intros Hrid.
  assert (parse_key (agent_heartbeat_key rid) = None) as Hp.
  { unfold parse_key, agent_heartbeat_key.
    change ("fms/robot/" +:+ rid +:+ "/heartbeat")
      with ("fms" +:+ String slash
              ("robot" +:+ String slash (rid +:+ String slash "heartbeat"))).
    rewrite !str_split_app by (assumption || reflexivity). reflexivity. }
  split; [exact Hp|]. unfold callback. now rewrite Hp.
Qed.

Lemma agent_heartbeat_is_ignored_witness :
  has_sep slash "r1" = false /\
  parse_key (agent_heartbeat_key "r1") = None /\
  callback (agent_heartbeat_key "r1") (Utf8Json (agent_status "IDLE"))
    busy_second
  = Returned tt busy_second.
Proof.
  split; [reflexivity|].
  exact (agent_heartbeat_is_ignored "r1" (Utf8Json (agent_status "IDLE"))
           busy_second eq_refl).
Defined.

(** ** The empty robot id *)

(** X25.  A dispatch request whose [robot_id] is the empty string is
    never accepted: even when the registry holds a record keyed by the
    empty string that is online with enough battery, [create_task] takes
    the id that [schedule_robot] returns for "no robot" and raises the 503
    rejection. *)
Theorem empty_robot_id_is_never_dispatched (w : World)
    (task : TaskRequest.t) :
  TaskRequest.robot_id task = "" ->
  (forall resp w', create_task task w <> Returned resp w') /\
  (lock w = false ->
   available "" (robot_states w) ->
   create_task task w = Raised (unavailable "") w).
Proof.
  intros Hid. split.
  - intros resp w' H. destruct (lock w) eqn:Hl.
    + unfold create_task, schedule_robot in H. unfold bind at 1 in H.
      rewrite with_lock_held in H by assumption. discriminate.
    + rewrite create_task_free in H by assumption. rewrite Hid in H.
      unfold verdict in H.
      destruct (dict_get "" (robot_states w)) as [robot|]; [|discriminate].
      destruct (py_eq_str _ _); [|discriminate].
      destruct (py_gt _ _) as [[|]|]; discriminate.
  - intros Hl Ha. rewrite create_task_free by assumption. rewrite Hid.
    apply verdict_available in Ha. now rewrite Ha.
Qed.

Lemma nameless_robot_available : available "" (robot_states nameless_robot).
Proof.
  eexists _, 100%Q. split; [reflexivity|].
  split; [reflexivity|]. split; reflexivity.
Defined.

Lemma empty_robot_id_is_never_dispatched_witness :
  (TaskRequest.robot_id (TaskRequest.mk "" JNull "high") = "" /\
   lock nameless_robot = false /\
   available "" (robot_states nameless_robot)) /\
  create_task (TaskRequest.mk "" JNull "high") nameless_robot
  = Raised (unavailable "") nameless_robot.
Proof.
  split; [split; [reflexivity | split;
                  [reflexivity | exact nameless_robot_available]]|].
  destruct (empty_robot_id_is_never_dispatched nameless_robot
              (TaskRequest.mk "" JNull "high") eq_refl) as [_ H].
  exact (H eq_refl nameless_robot_available).
Defined.
